(** * SpyceOfficial assistant: filename sanitizer, artifact store and mode pipelines

    A shallow embedding of [src/main.py].  Python text is a sequence of
    Unicode code points, files hold bytes, the session history is a list,
    and every interaction with the outside (remote completion, remote
    transcription, the clock, the filesystem) is an explicit oracle of the
    environment, so that each pipeline is a function from a world to a
    world. *)

From Stdlib Require Import NArith List String Ascii QArith.
From stdpp Require Import gmap list.

Local Open Scope N_scope.

(** ** Python text *)

(** A Python [str]: a sequence of Unicode code points. *)
Abbreviation char := N (only parsing).
Abbreviation str := (list N) (only parsing).
Abbreviation bytes := (list N) (only parsing).

(** ASCII literals of the source, as code points. *)
Definition lit (s : string) : str :=
  List.map N_of_ascii (list_ascii_of_string s).

Module Py.

(** [str.isspace] on one code point (CPython's [_PyUnicode_IsWhitespace]):
    bidirectional class WS, B or S, or general category Zs. *)
Definition isspace (c : char) : bool :=
  ((9 <=? c) && (c <=? 13))
  || ((28 <=? c) && (c <=? 32))
  || (c =? 0x85) || (c =? 0xA0) || (c =? 0x1680)
  || ((0x2000 <=? c) && (c <=? 0x200A))
  || (c =? 0x2028) || (c =? 0x2029) || (c =? 0x202F)
  || (c =? 0x205F) || (c =? 0x3000).

Fixpoint lstrip (s : str) : str :=
  match s with
  | [] => []
  | c :: s' => if isspace c then lstrip s' else s
  end.

Definition rstrip (s : str) : str := rev (lstrip (rev s)).

(** [s.strip()] with no argument: both ends are trimmed of whitespace. *)
Definition strip (s : str) : str := rstrip (lstrip s).

(** [s.startswith(p)] *)
Fixpoint startswith (s p : str) {struct p} : bool :=
  match p, s with
  | [], _ => true
  | _ :: _, [] => false
  | a :: p', b :: s' => (a =? b) && startswith s' p'
  end.

(** [s.endswith(p)] *)
Definition endswith (s p : str) : bool := startswith (rev s) (rev p).

(** Truth value of a [str]: the empty string is falsy. *)
Definition truthy (s : str) : bool :=
  match s with [] => false | _ :: _ => true end.

(** [s or ""] *)
Definition or_empty (s : str) : str := if truthy s then s else [].

End Py.

(** ** Helpers of the source *)

(** The character class [[a-zA-Z0-9_\-\.]] of [sanitize_filename]. *)
Definition in_class (c : char) : bool :=
  ((97 <=? c) && (c <=? 122))        (* a-z *)
  || ((65 <=? c) && (c <=? 90))      (* A-Z *)
  || ((48 <=? c) && (c <=? 57))      (* 0-9 *)
  || (c =? 95)                       (* _ *)
  || (c =? 45)                       (* - *)
  || (c =? 46).                      (* . *)

(** [re.sub(r"[^a-zA-Z0-9_\-\.]", "_", name)]: every code point outside the
    class is replaced, one for one, by an underscore. *)
Definition re_sub_unsafe (name : str) : str :=
  List.map (fun c => if in_class c then c else 95) name.

Definition sanitize_filename (name : str) : str :=
  let name := Py.strip (Py.or_empty name) in
  if negb (Py.truthy name) then lit "app.py"
  else
    let name := re_sub_unsafe name in
    if negb (Py.endswith name (lit ".py")) then name ++ lit ".py"
    else name.

(** *** The sanitizer as the specification words it *)

Module SpecWords.

(** "Empty or whitespace-only". *)
Definition whitespace_only (n : str) : bool := forallb Py.isspace n.

(** "Strip trailing whitespace": a code point is kept unless it is blank
    and everything to its right has gone. *)
Definition strip_trailing (n : str) : str :=
  fold_right
    (fun c acc => if Py.isspace c && negb (Py.truthy acc) then [] else c :: acc)
    [] n.

(** "Strip leading whitespace", by mirror image. *)
Definition strip_leading (n : str) : str := rev (strip_trailing (rev n)).

(** "Replace every character outside the set {letters, digits, underscore,
    hyphen, dot} with underscore". *)
Definition replace_unsafe (c : char) : char :=
  if in_class c then c else 95.

(** "If the result does not already end with the required extension,
    append it". *)
Definition with_extension (n : str) : str :=
  if Py.endswith n (lit ".py") then n else n ++ lit ".py".

Definition sanitize (n : str) : str :=
  if whitespace_only n then lit "app.py"
  else with_extension
         (List.map replace_unsafe (strip_trailing (strip_leading n))).

End SpecWords.

(** ** UTF-8, the encoding of every artifact *)

Module Utf8.

Definition is_surrogate (c : char) : bool := (0xD800 <=? c) && (c <=? 0xDFFF).

(** One code point to one to four bytes; a lone surrogate (and anything
    above U+10FFFF, which no [str] holds) cannot be encoded. *)
Definition encode_char (c : char) : option bytes :=
  if c <? 0x80 then Some [c]
  else if c <? 0x800 then Some [0xC0 + c / 64; 0x80 + c mod 64]
  else if c <? 0x10000 then
    if is_surrogate c then None
    else Some [0xE0 + c / 4096; 0x80 + (c / 64) mod 64; 0x80 + c mod 64]
  else if c <? 0x110000 then
    Some [0xF0 + c / 262144; 0x80 + (c / 4096) mod 64;
          0x80 + (c / 64) mod 64; 0x80 + c mod 64]
  else None.

(** [s.encode("utf-8")] with strict error handling; [None] stands for
    [UnicodeEncodeError]. *)
Fixpoint encode (s : str) : option bytes :=
  match s with
  | [] => Some []
  | c :: s' =>
      match encode_char c, encode s' with
      | Some b, Some bs => Some (b ++ bs)
      | _, _ => None
      end
  end.

Definition is_cont (b : N) : bool := (0x80 <=? b) && (b <? 0xC0).

(** [b.decode("utf-8")] with strict error handling: truncated or stray
    continuation bytes, overlong forms, surrogates and values above
    U+10FFFF are refused. *)
Fixpoint decode (bs : bytes) : option str :=
  match bs with
  | [] => Some []
  | b0 :: r0 =>
      if b0 <? 0x80 then cons b0 <$> decode r0
      else if b0 <? 0xC0 then None
      else if b0 <? 0xE0 then
        match r0 with
        | b1 :: r1 =>
            let c := (b0 - 0xC0) * 64 + (b1 - 0x80) in
            if is_cont b1 && (0x80 <=? c) then cons c <$> decode r1 else None
        | _ => None
        end
      else if b0 <? 0xF0 then
        match r0 with
        | b1 :: b2 :: r2 =>
            let c := (b0 - 0xE0) * 4096 + (b1 - 0x80) * 64 + (b2 - 0x80) in
            if is_cont b1 && is_cont b2 && (0x800 <=? c) && negb (is_surrogate c)
            then cons c <$> decode r2 else None
        | _ => None
        end
      else if b0 <? 0xF8 then
        match r0 with
        | b1 :: b2 :: b3 :: r3 =>
            let c := (b0 - 0xF0) * 262144 + (b1 - 0x80) * 4096
                     + (b2 - 0x80) * 64 + (b3 - 0x80) in
            if is_cont b1 && is_cont b2 && is_cont b3
               && (0x10000 <=? c) && (c <? 0x110000)
            then cons c <$> decode r3 else None
        | _ => None
        end
      else None
  end.

End Utf8.

(** ** The clock *)

(** A naive local [datetime], as [datetime.now()] returns it. *)
Record datetime := {
  year : N; month : N; day : N;
  hour : N; minute : N; second : N; microsecond : N
}.

Module Datetime.

Definition digit (n : N) : char := 48 + n mod 10.
Definition pad2 (n : N) : str := [digit (n / 10); digit n].
Definition pad4 (n : N) : str :=
  [digit (n / 1000); digit (n / 100); digit (n / 10); digit n].

(** [d.strftime("%Y%m%d_%H%M%S")] *)
Definition strftime_stamp (d : datetime) : str :=
  pad4 (year d) ++ pad2 (month d) ++ pad2 (day d) ++ lit "_"
  ++ pad2 (hour d) ++ pad2 (minute d) ++ pad2 (second d).

(** [d.strftime("%Y-%m-%d %H:%M:%S")] *)
Definition strftime_iso (d : datetime) : str :=
  pad4 (year d) ++ lit "-" ++ pad2 (month d) ++ lit "-" ++ pad2 (day d)
  ++ lit " " ++ pad2 (hour d) ++ lit ":" ++ pad2 (minute d) ++ lit ":"
  ++ pad2 (second d).

(** The field ranges of a [datetime] whose year prints as four digits on
    every platform. *)
Definition valid (d : datetime) : bool :=
  (1000 <=? year d) && (year d <=? 9999)
  && (1 <=? month d) && (month d <=? 12)
  && (1 <=? day d) && (day d <=? 31)
  && (hour d <? 24) && (minute d <? 60) && (second d <? 60)
  && (microsecond d <? 1000000).

(** The second-precision part of a timestamp: what [strftime] looks at. *)
Definition to_second (d : datetime) : N * N * N * N * N * N :=
  (year d, month d, day d, hour d, minute d, second d).

End Datetime.

(** ** Paths (POSIX [os.path]) *)

Module os_path.

Definition sep : char := 47.

(** [os.path.join(a, b)] *)
Definition join (a b : str) : str :=
  if Py.startswith b [sep] then b
  else if negb (Py.truthy a) || Py.endswith a [sep] then a ++ b
  else a ++ [sep] ++ b.

Fixpoint until_sep (p : str) : str :=
  match p with
  | [] => []
  | c :: p' => if c =? sep then [] else c :: until_sep p'
  end.

(** [os.path.basename(p)]: what follows the last separator. *)
Definition basename (p : str) : str := rev (until_sep (rev p)).

End os_path.

(** ** The world a pipeline runs in *)

Module History.
(** One entry of [st.session_state.history]. *)
Record record := {
  mode : str; prompt : str; filename : str; path : str; time : str
}.
End History.

(** One element of the [messages] list of a completion request. *)
Record message := { role : str; content : str }.

(** What the page shows, call by call. *)
Inductive st_call :=
| st_warning (body : str)
| st_error (body : str)
| st_success (body : str)
| st_subheader (body : str)
| st_code (body language : str)
| st_write (body : str)
| st_download_button (label data file_name : str).

(** Everything a run does that can be observed from outside, in order. *)
Inductive event :=
| Shown (c : st_call)
| CompletionRequest (model : str) (messages : list message) (temperature : Q)
| TranscriptionRequest (model : str) (audio : bytes).

Record world := {
  files : gmap (list N) (list N);      (* the disk: path to bytes *)
  history : list History.record;       (* st.session_state.history *)
  trace : list event;
  clock_reads : nat                    (* calls of datetime.now() so far *)
}.

(** The result of a call into a collaborator: a value, or an exception
    carrying [str(e)]. *)
Inductive reply (A : Type) :=
| Returns (a : A)
| Fails (msg : str).
Arguments Returns {A} a.
Arguments Fails {A} msg.

(** The environment: how the outside answers.  A completion response is the
    list of its choices, each the [message.content] of that choice ([None]
    for a null content). *)
Record env := {
  PROJECTS_DIR : str;
  now : nat -> datetime;
  chat_completions_create : list message -> Q -> reply (list (option str));
  audio_transcriptions_create : bytes -> reply str;
  open_error : str -> option str;      (* open(path, "w" / "wb") fails *)
  flush_error : str -> option str;     (* the write does not reach the disk *)
  remove_error : str -> option str     (* os.remove(path) fails *)
}.

(** *** State and exceptions *)

(** [Exception e] carries [str(e)]; [StopException] is what [st.stop()]
    raises, a [BaseException] that no [except Exception] catches. *)
Inductive exn :=
| Exception (msg : str)
| StopException.

Inductive result (A : Type) :=
| Val (a : A)
| Exc (e : exn).
Arguments Val {A} a.
Arguments Exc {A} e.

Definition M (A : Type) : Type := env -> world -> world * result A.

Definition ret {A} (a : A) : M A := fun _ w => (w, Val a).

Definition bind {A B} (m : M A) (k : A -> M B) : M B :=
  fun e w =>
    match m e w with
    | (w', Val a) => k a e w'
    | (w', Exc x) => (w', Exc x)
    end.

Definition raise {A} (msg : str) : M A := fun _ w => (w, Exc (Exception msg)).

(** [try: body  except Exception as e: handler(str(e))] *)
Definition try_except {A} (body : M A) (handler : str -> M A) : M A :=
  fun e w =>
    match body e w with
    | (w', Exc (Exception msg)) => handler msg e w'
    | r => r
    end.

Notation "'do' x <- m ; k" := (bind m (fun x => k))
  (at level 10, x name, m at level 100, k at level 200).
Notation "'exec' m ; k" := (bind m (fun _ => k))
  (at level 10, m at level 100, k at level 200).

Definition ask {A} (f : env -> A) : M A := fun e w => (w, Val (f e)).

(** The four ways a step changes the world. *)
Definition log (ev : event) (w : world) : world :=
  {| files := files w; history := history w;
     trace := trace w ++ [ev]; clock_reads := clock_reads w |}.

Definition with_files (fs : gmap (list N) (list N)) (w : world) : world :=
  {| files := fs; history := history w;
     trace := trace w; clock_reads := clock_reads w |}.

Definition tick (w : world) : world :=
  {| files := files w; history := history w;
     trace := trace w; clock_reads := S (clock_reads w) |}.

Definition appended (r : History.record) (w : world) : world :=
  {| files := files w; history := history w ++ [r];
     trace := trace w; clock_reads := clock_reads w |}.

Definition emit (ev : event) : M unit := fun _ w => (log ev w, Val tt).

(** A display call, taken to succeed: the texts a run shows are assumed to
    have a UTF-8 encoding.  The real call raises on a text that has none;
    [Strict.st], further down, models that. *)
Definition st (c : st_call) : M unit := emit (Shown c).

(** [st.stop()] *)
Definition st_stop {A} : M A := fun _ w => (w, Exc StopException).

Definition set_files (fs : gmap (list N) (list N)) : M unit :=
  fun _ w => (with_files fs w, Val tt).

Definition get_files : M (gmap (list N) (list N)) := fun _ w => (w, Val (files w)).

(** [datetime.now()] *)
Definition datetime_now : M datetime :=
  fun e w => (tick w, Val (now e (clock_reads w))).

(** [st.session_state.history.append(r)] *)
Definition history_append (r : History.record) : M unit :=
  fun _ w => (appended r w, Val tt).

(** *** The filesystem *)

(** What [str(e)] reads when text cannot be encoded. *)
Definition UnicodeEncodeError : str :=
  lit "'utf-8' codec can't encode character: surrogates not allowed".

Definition FileNotFoundError : str := lit "[Errno 2] No such file or directory".

(** [with open(path, mode) as f: f.write(data)].  Opening for writing
    truncates the file; [data] is [None] when the text has no encoding, and
    a write that does not reach the disk leaves the truncated file behind. *)
Definition write_file (path : str) (data : option bytes) : M unit :=
  do err <- ask (fun e => open_error e path);
  match err with
  | Some msg => raise msg
  | None =>
      do fs <- get_files;
      exec set_files (<[path := []]> fs);
      match data with
      | None => raise UnicodeEncodeError
      | Some bs =>
          do err <- ask (fun e => flush_error e path);
          match err with
          | Some msg => raise msg
          | None => set_files (<[path := bs]> fs)
          end
      end
  end.

(** [open(path, "rb")], read to the end. *)
Definition read_file (path : str) : M bytes :=
  do fs <- get_files;
  match fs !! path with
  | Some bs => ret bs
  | None => raise FileNotFoundError
  end.

(** [os.remove(path)] *)
Definition os_remove (path : str) : M unit :=
  do err <- ask (fun e => remove_error e path);
  match err with
  | Some msg => raise msg
  | None =>
      do fs <- get_files;
      match fs !! path with
      | Some _ => set_files (delete path fs)
      | None => raise FileNotFoundError
      end
  end.

(** Reading an artifact back: the bytes on disk, decoded as UTF-8, with no
    newline translation. *)
Definition read_text (w : world) (path : str) : option str :=
  match files w !! path with
  | Some bs => Utf8.decode bs
  | None => None
  end.

(** ** Helpers of the source, continued *)

Definition nl : str := [10].

(** The path [save_text] writes to when the clock reads [d]. *)
Definition artifact_path (dir : str) (d : datetime) (filename : str) : str :=
  os_path.join dir
    (Datetime.strftime_stamp d ++ lit "_" ++ sanitize_filename filename).

Definition save_text (content filename : str) : M str :=
  do d <- datetime_now;
  do dir <- ask PROJECTS_DIR;
  let path := artifact_path dir d filename in
  exec write_file path (Utf8.encode content);
  ret path.

(** The warning marker that opens every folded completion failure. *)
Definition WARNING_SIGN : str := [0x26A0; 0xFE0F].

Definition IndexError : str := lit "list index out of range".
Definition AttributeError : str :=
  lit "'NoneType' object has no attribute 'strip'".

(** [client.chat.completions.create(model=..., messages=..., temperature=...)] *)
Definition create_completion (messages : list message) (temperature : Q)
  : M (list (option str)) :=
  exec emit (CompletionRequest (lit "gpt-3.5-turbo") messages temperature);
  do r <- ask (fun e => chat_completions_create e messages temperature);
  match r with
  | Returns choices => ret choices
  | Fails msg => raise msg
  end.

(** [resp.choices[0].message.content.strip()] *)
Definition first_content_stripped (choices : list (option str)) : M str :=
  match choices with
  | [] => raise IndexError
  | None :: _ => raise AttributeError
  | Some c :: _ => ret (Py.strip c)
  end.

Definition ask_model (messages : list message) (temperature : Q) : M str :=
  try_except
    (do resp <- create_completion messages temperature;
     first_content_stripped resp)
    (fun e => ret (WARNING_SIGN ++ lit " Error: " ++ e)).

Definition system (c : str) : message := {| role := lit "system"; content := c |}.
Definition user (c : str) : message := {| role := lit "user"; content := c |}.

(** ** The five tabs *)

(** Each tab is the body of its [if <button>:] block.  Spinners and the
    input widgets only frame it and are left out; what the block shows
    ([st.warning], [st.subheader], [st.code], ...) is kept, in order. *)

Definition MEMO : str := [0x1F4DD].
Definition CHECK_MARK : str := [0x2705].
Definition CROSS_MARK : str := [0x274C].
Definition BRAIN : str := [0x1F9E0].
Definition SPEAKING_HEAD : str := [0x1F5E3; 0xFE0F].
Definition SPEECH_BALLOON : str := [0x1F4AC].

(** [st.session_state.history.append({...})], the time read when the
    entry is built. *)
Definition record_history (mode prompt filename path : str) : M unit :=
  do d <- datetime_now;
  history_append
    {| History.mode := mode; History.prompt := prompt;
       History.filename := filename; History.path := path;
       History.time := Datetime.strftime_iso d |}.

Definition build_messages (prompt : str) : list message :=
  [ system (lit "You are a helpful software engineer. Return only runnable code unless asked otherwise.");
    user prompt ].

Definition tab_build (prompt filename : str) (generate : bool) : M unit :=
  if generate then
    if negb (Py.truthy (Py.strip prompt)) then
      exec st (st_warning (lit "Please describe what to build."));
      st_stop
    else
      do code <- ask_model (build_messages prompt) (2 # 10);
      exec st (st_subheader (MEMO ++ lit " Generated code"));
      exec st (st_code code (lit "python"));
      try_except
        (do path <- save_text code filename;
         exec st (st_success (CHECK_MARK ++ lit " Code saved to " ++ path));
         exec st (st_download_button (lit "Download code file") code
                    (os_path.basename path));
         record_history (lit "Build Code") prompt filename path)
        (fun e => st (st_error (CROSS_MARK ++ lit " Failed to save file: " ++ e)))
  else ret tt.

Definition modify_messages (base_code change_request : str) : list message :=
  [ system (lit "You are a senior software engineer. Transform the provided code according to the request. Return only the full updated code.");
    user (lit "Original code:" ++ nl ++ nl ++ base_code ++ nl ++ nl
          ++ lit "Change request:" ++ nl ++ change_request) ].

Definition tab_modify (base_code change_request filename2 : str)
    (apply_changes : bool) : M unit :=
  if apply_changes then
    if negb (Py.truthy (Py.strip base_code)) then
      exec st (st_warning (lit "Please paste the code to modify."));
      st_stop
    else if negb (Py.truthy (Py.strip change_request)) then
      exec st (st_warning (lit "Please describe the changes you want."));
      st_stop
    else
      do updated <- ask_model (modify_messages base_code change_request) (2 # 10);
      exec st (st_subheader (MEMO ++ lit " Updated code"));
      exec st (st_code updated (lit "python"));
      try_except
        (do path <- save_text updated filename2;
         exec st (st_success (CHECK_MARK ++ lit " Updated code saved to " ++ path));
         exec st (st_download_button (lit "Download updated file") updated
                    (os_path.basename path));
         record_history (lit "Modify Code") change_request filename2 path)
        (fun e => st (st_error (CROSS_MARK ++ lit " Failed to save file: " ++ e)))
  else ret tt.

Definition edit_messages (content edit_request : str) : list message :=
  [ system (lit "You are a precise editor. Apply the requested changes faithfully. Return only the edited content.");
    user (lit "Content:" ++ nl ++ nl ++ content ++ nl ++ nl
          ++ lit "Edit request:" ++ nl ++ edit_request) ].

Definition tab_edit (content edit_request filename3 : str)
    (apply_edit : bool) : M unit :=
  if apply_edit then
    if negb (Py.truthy (Py.strip content)) then
      exec st (st_warning (lit "Please paste the content to edit."));
      st_stop
    else if negb (Py.truthy (Py.strip edit_request)) then
      exec st (st_warning (lit "Please describe the edit you want."));
      st_stop
    else
      do edited <- ask_model (edit_messages content edit_request) (2 # 10);
      exec st (st_subheader (MEMO ++ lit " Edited content"));
      exec st (st_code edited (lit "text"));
      try_except
        (do path <- save_text edited filename3;
         exec st (st_success (CHECK_MARK ++ lit " Edited content saved to " ++ path));
         exec st (st_download_button (lit "Download edited content") edited
                    (os_path.basename path));
         record_history (lit "Edit Anything") edit_request filename3 path)
        (fun e => st (st_error (CROSS_MARK ++ lit " Failed to save edited content: " ++ e)))
  else ret tt.

Definition ask_messages (question : str) : list message :=
  [ system (lit "You are a helpful, factual assistant. Provide clear, concise answers. If a calculation depends on live data, explain the method and give an approximate answer.");
    user question ].

Definition tab_ask (question filename4 : str) (ask_button : bool) : M unit :=
  if ask_button then
    if negb (Py.truthy (Py.strip question)) then
      exec st (st_warning (lit "Please enter your question."));
      st_stop
    else
      do answer <- ask_model (ask_messages question) (0 # 1);
      exec st (st_subheader (BRAIN ++ lit " Answer"));
      exec st (st_write answer);
      if Py.truthy (Py.strip filename4) then
        try_except
          (do path <- save_text answer filename4;
           exec st (st_success (CHECK_MARK ++ lit " Answer saved to " ++ path));
           exec st (st_download_button (lit "Download answer") answer
                      (os_path.basename path));
           record_history (lit "Ask Anything") question filename4 path)
          (fun e => st (st_error (CROSS_MARK ++ lit " Failed to save answer: " ++ e)))
      else ret tt
  else ret tt.

(** [client.audio.transcriptions.create(model="whisper-1", file=audio).text] *)
Definition create_transcription (audio : bytes) : M str :=
  exec emit (TranscriptionRequest (lit "whisper-1") audio);
  do r <- ask (fun e => audio_transcriptions_create e audio);
  match r with
  | Returns text => ret text
  | Fails msg => raise msg
  end.

Definition voice_messages (transcript : str) : list message :=
  [ system (lit "You are a helpful assistant. Respond clearly and concisely to the user's transcribed voice request.");
    user transcript ].

(** The temporary copy of an upload named [name]. *)
Definition temp_path_of (dir name : str) : str :=
  os_path.join dir (lit "temp_" ++ name).

(** [f"Transcript:\n{transcript}\n\nResponse:\n{reply}"] *)
Definition combined_text (transcript reply : str) : str :=
  lit "Transcript:" ++ nl ++ transcript ++ nl ++ nl
  ++ lit "Response:" ++ nl ++ reply.

(** An upload is its name and its bytes; [None] when nothing was chosen. *)
Definition tab_voice (audio_file : option (str * bytes)) (filename5 : str)
    (process_audio : bool) : M unit :=
  if process_audio then
    match audio_file with
    | None =>
        exec st (st_warning (lit "Please upload an audio file."));
        st_stop
    | Some (name, data) =>
        try_except
          (do dir <- ask PROJECTS_DIR;
           let temp_path := temp_path_of dir name in
           exec write_file temp_path (Some data);
           do audio <- read_file temp_path;
           do text <- create_transcription audio;
           let transcript := Py.strip text in
           exec st (st_subheader (SPEAKING_HEAD ++ lit " Transcript"));
           exec st (st_write transcript);
           do reply <- ask_model (voice_messages transcript) (2 # 10);
           exec st (st_subheader (SPEECH_BALLOON ++ lit " Response"));
           exec st (st_write reply);
           let combined := combined_text transcript reply in
           do path <- save_text combined filename5;
           exec st (st_success (CHECK_MARK ++ lit " Transcript & response saved to " ++ path));
           exec st (st_download_button (lit "Download transcript & response")
                      combined (os_path.basename path));
           exec record_history (lit "Voice") transcript filename5 path;
           try_except (os_remove temp_path) (fun _ => ret tt))
          (fun e => st (st_error (CROSS_MARK ++ lit " Voice processing failed: " ++ e)))
    end
  else ret tt.

(** *** One press of a primary button *)

Inductive submission :=
| Build (prompt filename : str)
| Modify (base_code change_request filename2 : str)
| Edit (content edit_request filename3 : str)
| Ask (question filename4 : str)
| Voice (audio_file : option (str * bytes)) (filename5 : str).

Definition run (s : submission) : M unit :=
  match s with
  | Build prompt filename => tab_build prompt filename true
  | Modify base_code change_request filename2 =>
      tab_modify base_code change_request filename2 true
  | Edit content edit_request filename3 =>
      tab_edit content edit_request filename3 true
  | Ask question filename4 => tab_ask question filename4 true
  | Voice audio_file filename5 => tab_voice audio_file filename5 true
  end.

(** ** Vocabulary of the claims *)

(** An input the validation refuses: [not s.strip()]. *)
Definition blank (s : str) : bool := negb (Py.truthy (Py.strip s)).

(** [str(e)] of the exception raised inside the [try] of [ask_model], if
    any: the remote call fails, or the response has no choice, or its first
    choice has a null content. *)
Definition completion_failure (r : reply (list (option str))) : option str :=
  match r with
  | Fails msg => Some msg
  | Returns [] => Some IndexError
  | Returns (None :: _) => Some AttributeError
  | Returns (Some _ :: _) => None
  end.

(** The text [ask_model] hands back for a given answer of the remote end. *)
Definition completion_text (r : reply (list (option str))) : str :=
  match r with
  | Returns (Some c :: _) => Py.strip c
  | _ =>
      WARNING_SIGN ++ lit " Error: "
      ++ match completion_failure r with Some msg => msg | None => [] end
  end.

(** The [try ... except] block that closes the Build, Modify, Edit and Ask
    tabs, with the literals that differ as parameters. *)
Definition persist (saved label mode failed : str) (text prompt filename : str)
  : M unit :=
  try_except
    (do path <- save_text text filename;
     exec st (st_success (CHECK_MARK ++ saved ++ path));
     exec st (st_download_button label text (os_path.basename path));
     record_history mode prompt filename path)
    (fun e => st (st_error (CROSS_MARK ++ failed ++ e))).

(** The output filename field of a submission. *)
Definition filename_of (s : submission) : str :=
  match s with
  | Build _ f | Modify _ _ f | Edit _ _ f | Ask _ f | Voice _ f => f
  end.

(** The completion request a submission leads to, once validated (for
    Voice: once transcribed). *)
Definition completion_request (e : env) (s : submission)
  : option (list message * Q) :=
  match s with
  | Build p _ => Some (build_messages p, 2 # 10)
  | Modify b c _ => Some (modify_messages b c, 2 # 10)
  | Edit c r _ => Some (edit_messages c r, 2 # 10)
  | Ask q _ => Some (ask_messages q, 0 # 1)
  | Voice (Some (_, data)) _ =>
      match audio_transcriptions_create e data with
      | Returns text => Some (voice_messages (Py.strip text), 2 # 10)
      | Fails _ => None
      end
  | Voice None _ => None
  end.

(** The text a submission hands to [save_text]. *)
Definition artifact_text (e : env) (s : submission) : str :=
  match completion_request e s with
  | Some (messages, temperature) =>
      let answer := completion_text (chat_completions_create e messages temperature) in
      match s, messages with
      | Voice _ _, [_; m] => combined_text (content m) answer
      | _, _ => answer
      end
  | None => []
  end.

Definition is_None {A} (o : option A) : bool :=
  match o with None => true | Some _ => false end.

(** A run gets as far as the Persisting step: its inputs pass validation,
    the Ask tab was given a filename, and the Voice tab got its temporary
    copy written and transcribed. *)
Definition reaches_persisting (e : env) (s : submission) : bool :=
  match s with
  | Build p _ => negb (blank p)
  | Modify b c _ => negb (blank b) && negb (blank c)
  | Edit c r _ => negb (blank c) && negb (blank r)
  | Ask q f => negb (blank q) && negb (blank f)
  | Voice (Some (name, data)) _ =>
      let t := temp_path_of (PROJECTS_DIR e) name in
      is_None (open_error e t) && is_None (flush_error e t)
      && match audio_transcriptions_create e data with
         | Returns _ => true
         | Fails _ => false
         end
  | Voice None _ => false
  end.

(** The path the Persisting step of a run started in [w] writes to. *)
Definition target_path (e : env) (w : world) (s : submission) : str :=
  artifact_path (PROJECTS_DIR e) (now e (clock_reads w)) (filename_of s).

(** A primary input of a Build, Modify or Edit submission is blank, and
    the warning that answers it. *)
Definition missing_input (s : submission) : option str :=
  match s with
  | Build p _ =>
      if blank p then Some (lit "Please describe what to build.") else None
  | Modify b c _ =>
      if blank b then Some (lit "Please paste the code to modify.")
      else if blank c then Some (lit "Please describe the changes you want.")
      else None
  | Edit c r _ =>
      if blank c then Some (lit "Please paste the content to edit.")
      else if blank r then Some (lit "Please describe the edit you want.")
      else None
  | _ => None
  end.

(** *** The worlds a run passes through *)

(** The world once the answer of the remote end is on the page. *)
Definition answered (request : event) (title : str) (body : st_call)
    (w : world) : world :=
  log (Shown body) (log (Shown (st_subheader title)) (log request w)).

(** A refused submission: the warning, then [st.stop()]. *)
Definition refused (warning : str) (w : world) : world * result unit :=
  (log (Shown (st_warning warning)) w, Exc StopException).

(** The world of a Voice run when it reaches the Persisting step. *)
Definition voiced (e : env) (name : str) (data : bytes) (text : str)
    (w : world) : world :=
  let t := temp_path_of (PROJECTS_DIR e) name in
  let transcript := Py.strip text in
  let request := CompletionRequest (lit "gpt-3.5-turbo")
                   (voice_messages transcript) (2 # 10) in
  let reply := completion_text
                 (chat_completions_create e (voice_messages transcript) (2 # 10)) in
  answered request (SPEECH_BALLOON ++ lit " Response") (st_write reply)
    (answered (TranscriptionRequest (lit "whisper-1") data)
       (SPEAKING_HEAD ++ lit " Transcript") (st_write transcript)
       (with_files (<[t := data]> (files w)) w)).

(** The end of a Voice run that an exception cut short. *)
Definition voice_failed (msg : str) (w : world) : world * result unit :=
  (log (Shown (st_error (CROSS_MARK ++ lit " Voice processing failed: " ++ msg))) w,
   Val tt).

(** [os.remove(temp_path)] inside its own [try ... except: pass]. *)
Definition cleaned (e : env) (t : str) (w : world) : world :=
  match remove_error e t with
  | Some _ => w
  | None =>
      match files w !! t with
      | Some _ => with_files (delete t (files w)) w
      | None => w
      end
  end.

(** The literal that opens the error message of each tab. *)
Definition failed_prefix (s : submission) : str :=
  match s with
  | Build _ _ | Modify _ _ _ => lit " Failed to save file: "
  | Edit _ _ _ => lit " Failed to save edited content: "
  | Ask _ _ => lit " Failed to save answer: "
  | Voice _ _ => lit " Voice processing failed: "
  end.

Definition is_voice (s : submission) : bool :=
  match s with Voice _ _ => true | _ => false end.

(** ** Sample environments *)

Module Sample.

Definition morning : datetime :=
  {| year := 2024; month := 3; day := 7;
     hour := 9; minute := 5; second := 59; microsecond := 120034 |}.

(** The same second, a little later. *)
Definition same_second : datetime :=
  {| year := 2024; month := 3; day := 7;
     hour := 9; minute := 5; second := 59; microsecond := 873000 |}.

Definition next_second : datetime :=
  {| year := 2024; month := 3; day := 7;
     hour := 9; minute := 6; second := 0; microsecond := 4 |}.

(** A session in which nothing has happened yet. *)
Definition fresh : world :=
  {| files := ∅; history := []; trace := []; clock_reads := 0 |}.

(** Everything works: the model answers "hi there", the transcription
    hears "hello", the disk accepts every write. *)
Definition healthy : env :=
  {| PROJECTS_DIR := lit "/srv/app/projects";
     now := fun n => match n with
                     | O => morning | 1%nat => same_second | _ => next_second
                     end;
     chat_completions_create := fun _ _ => Returns [Some (lit "hi there")];
     audio_transcriptions_create := fun _ => Returns (lit "hello");
     open_error := fun _ => None;
     flush_error := fun _ => None;
     remove_error := fun _ => None |}.

(** The remote completion end cannot be reached. *)
Definition offline : env :=
  {| PROJECTS_DIR := PROJECTS_DIR healthy;
     now := now healthy;
     chat_completions_create := fun _ _ => Fails (lit "Connection error.");
     audio_transcriptions_create := audio_transcriptions_create healthy;
     open_error := fun _ => None;
     flush_error := fun _ => None;
     remove_error := fun _ => None |}.

(** The completion end cannot be reached and the content root refuses
    every new file. *)
Definition offline_readonly : env :=
  {| PROJECTS_DIR := PROJECTS_DIR healthy;
     now := now healthy;
     chat_completions_create := chat_completions_create offline;
     audio_transcriptions_create := audio_transcriptions_create healthy;
     open_error := fun _ => Some (lit "[Errno 13] Permission denied");
     flush_error := fun _ => None;
     remove_error := fun _ => None |}.

(** The disk accepts every write but the content root refuses new
    artifacts whose name carries a stamp; temporary copies get through. *)
Definition artifacts_refused : env :=
  {| PROJECTS_DIR := PROJECTS_DIR healthy;
     now := now healthy;
     chat_completions_create := chat_completions_create healthy;
     audio_transcriptions_create := audio_transcriptions_create healthy;
     open_error := fun p =>
       if Py.startswith p (lit "/srv/app/projects/temp_") then None
       else Some (lit "[Errno 28] No space left on device");
     flush_error := fun _ => None;
     remove_error := fun _ => None |}.

(** The transcription end fails. *)
Definition deaf : env :=
  {| PROJECTS_DIR := PROJECTS_DIR healthy;
     now := now healthy;
     chat_completions_create := chat_completions_create healthy;
     audio_transcriptions_create := fun _ => Fails (lit "Invalid file format.");
     open_error := fun _ => None;
     flush_error := fun _ => None;
     remove_error := fun _ => None |}.

Definition note : str * bytes := (lit "note.wav", [82; 73; 70; 70]).

(** The session after one, and after two, readings of the clock. *)
Definition later : world :=
  {| files := ∅; history := []; trace := []; clock_reads := 1 |}.
Definition much_later : world :=
  {| files := ∅; history := []; trace := []; clock_reads := 2 |}.

End Sample.

(** ** The rest of the page *)

(** *** Start-up *)



(** *** Quick templates *)

Definition EM_DASH : str := [0x2014].

(** The first entry of the select box: no template. *)
Definition NO_TEMPLATE : str := EM_DASH ++ lit " None " ++ EM_DASH.

(** The choices of [st.selectbox]. *)
Definition template_options : list (list N) :=
  [ NO_TEMPLATE;
    lit "Python: Hello World CLI";
    lit "Python: To-do list (CLI)";
    lit "Python: Login system (JSON users)";
    lit "Streamlit: Simple dashboard";
    lit "Flask: Minimal API with /hello" ].

(** The [mapping] dictionary of [template_text], entry by entry. *)
Definition mapping : list (list N * list N) :=
  [ (lit "Python: Hello World CLI",
     lit "Build a Python CLI that prints 'Hello, SpyceOfficial!'");
    (lit "Python: To-do list (CLI)",
     lit "Build a Python CLI to add/list/remove tasks and save them to tasks.json.");
    (lit "Python: Login system (JSON users)",
     lit "Build a Python CLI login system with register/login/logout, storing users in users.json (username + hashed password).");
    (lit "Streamlit: Simple dashboard",
     lit "Build a Streamlit app with a sidebar, a main chart using random data, and a table view.");
    (lit "Flask: Minimal API with /hello",
     lit "Build a Flask app with a /hello endpoint returning JSON {message: 'Hello from SpyceOfficial'}.") ].

(** [mapping.get(name, "")] *)
Definition template_text (name : str) : str :=
  default [] ((list_to_map mapping : gmap (list N) (list N)) !! name).

(** The [value] the Build prompt box starts with. *)
Definition default_prompt (template : str) : str :=
  if bool_decide (template <> NO_TEMPLATE) then template_text template else [].

(** *** The history sidebar *)

(** [prompt[:60]] followed by ['...'] when the prompt is longer. *)
Definition preview (prompt : str) : str :=
  take 60 prompt ++ (if (60 <? length prompt)%nat then lit "..." else []).

(** The body of the [st.markdown] call for one record. *)
Definition history_line (item : History.record) : str :=
  let name :=
    if Py.truthy (History.path item) then os_path.basename (History.path item)
    else EM_DASH in
  lit "- **Mode:** " ++ History.mode item ++ lit "  " ++ nl
  ++ lit "  **Prompt:** " ++ preview (History.prompt item) ++ lit "  " ++ nl
  ++ lit "  **File:** `" ++ name ++ lit "` " ++ EM_DASH ++ lit " "
  ++ History.time item.

(** What the sidebar calls under its History heading. *)
Inductive sidebar_call :=
| sb_markdown (body : str)
| sb_caption (body : str).

Definition sidebar_history (h : list History.record) : list sidebar_call :=
  match h with
  | _ :: _ => List.map (fun item => sb_markdown (history_line item)) (rev h)
  | [] => [sb_caption (lit "No items yet. Generate your first result on the right.")]
  end.

(** ** Vocabulary of the further properties *)

(** The inputs of a submission pass the validation of its tab. *)
Definition validated (s : submission) : bool :=
  match s with
  | Build p _ => negb (blank p)
  | Modify b c _ => negb (blank b) && negb (blank c)
  | Edit c r _ => negb (blank c) && negb (blank r)
  | Ask q _ => negb (blank q)
  | Voice (Some _) _ => true
  | Voice None _ => false
  end.

(** The warning a tab answers a refused submission with. *)
Definition warning_of (s : submission) : str :=
  match s with
  | Build _ _ => lit "Please describe what to build."
  | Modify b _ _ =>
      if blank b then lit "Please paste the code to modify."
      else lit "Please describe the changes you want."
  | Edit c _ _ =>
      if blank c then lit "Please paste the content to edit."
      else lit "Please describe the edit you want."
  | Ask _ _ => lit "Please enter your question."
  | Voice _ _ => lit "Please upload an audio file."
  end.


(** The literals of each tab's closing block. *)
Definition mode_name (s : submission) : str :=
  match s with
  | Build _ _ => lit "Build Code"
  | Modify _ _ _ => lit "Modify Code"
  | Edit _ _ _ => lit "Edit Anything"
  | Ask _ _ => lit "Ask Anything"
  | Voice _ _ => lit "Voice"
  end.

Definition saved_literal (s : submission) : str :=
  match s with
  | Build _ _ => lit " Code saved to "
  | Modify _ _ _ => lit " Updated code saved to "
  | Edit _ _ _ => lit " Edited content saved to "
  | Ask _ _ => lit " Answer saved to "
  | Voice _ _ => lit " Transcript & response saved to "
  end.

Definition download_label (s : submission) : str :=
  match s with
  | Build _ _ => lit "Download code file"
  | Modify _ _ _ => lit "Download updated file"
  | Edit _ _ _ => lit "Download edited content"
  | Ask _ _ => lit "Download answer"
  | Voice _ _ => lit "Download transcript & response"
  end.

(** What a tab stores under ["prompt"]: the request, not the pasted text;
    for Voice, the transcript. *)
Definition recorded_prompt (e : env) (s : submission) : str :=
  match s with
  | Build p _ => p
  | Modify _ c _ => c
  | Edit _ r _ => r
  | Ask q _ => q
  | Voice (Some (_, data)) _ =>
      match audio_transcriptions_create e data with
      | Returns text => Py.strip text
      | Fails _ => []
      end
  | Voice None _ => []
  end.

(** The world of a text tab once its answer is on the page. *)
Definition dispatched (e : env) (s : submission) (w : world) : world :=
  match completion_request e s with
  | Some (messages, temperature) =>
      answered (CompletionRequest (lit "gpt-3.5-turbo") messages temperature)
        match s with
        | Build _ _ => MEMO ++ lit " Generated code"
        | Modify _ _ _ => MEMO ++ lit " Updated code"
        | Edit _ _ _ => MEMO ++ lit " Edited content"
        | _ => BRAIN ++ lit " Answer"
        end
        match s with
        | Build _ _ | Modify _ _ _ => st_code (artifact_text e s) (lit "python")
        | Edit _ _ _ => st_code (artifact_text e s) (lit "text")
        | _ => st_write (artifact_text e s)
        end
        w
  | None => w
  end.

(** The save of a run started in [w] goes through: the target opens, the
    text has an encoding, the bytes reach the disk. *)
Definition save_ok (e : env) (w : world) (s : submission) : bool :=
  is_None (open_error e (target_path e w s))
  && negb (is_None (Utf8.encode (artifact_text e s)))
  && is_None (flush_error e (target_path e w s)).

(** The record a run started in [w] appends when it does: the stamp of the
    artifact is the first reading of the clock, the time of the record the
    second. *)
Definition record_of (e : env) (w : world) (s : submission) : History.record :=
  {| History.mode := mode_name s;
     History.prompt := recorded_prompt e s;
     History.filename := filename_of s;
     History.path := target_path e w s;
     History.time := Datetime.strftime_iso (now e (S (clock_reads w))) |}.

(** The paths a run may write to or remove: its artifact and, for Voice,
    the temporary copy of the upload. *)
Definition touched (e : env) (w : world) (s : submission) : list (list N) :=
  target_path e w s
  :: match s with
     | Voice (Some (name, _)) _ => [temp_path_of (PROJECTS_DIR e) name]
     | _ => []
     end.



(** The request a run sends, if it sends one. *)
Definition request_of (e : env) (s : submission) : list event :=
  match completion_request e s with
  | Some (messages, temperature) =>
      [CompletionRequest (lit "gpt-3.5-turbo") messages temperature]
  | None => []
  end.


(** A text without a path separator: a single path component. *)
Definition separator_free (s : str) : bool :=
  forallb (fun c => negb (c =? os_path.sep)) s.


(** ** Reading an artifact back in text mode *)

(** What a text-mode read does to line ends (universal newlines): a
    carriage return followed by a line feed, and a carriage return alone,
    both come back as one line feed. *)
Fixpoint universal_newlines (s : str) : str :=
  match s with
  | [] => []
  | c :: s' =>
      if c =? 13 then
        10 :: match s' with
              | d :: s'' =>
                  if d =? 10 then universal_newlines s''
                  else universal_newlines s'
              | [] => []
              end
      else c :: universal_newlines s'
  end.

(** [open(path, encoding="utf-8").read()]: the bytes decoded, then the line
    ends translated. *)
Definition read_text_mode (w : world) (path : str) : option str :=
  universal_newlines <$> read_text w path.

(** ** A front end that refuses what it cannot encode *)

(** The texts a display call hands to the front end. *)
Definition call_texts (c : st_call) : list (list N) :=
  match c with
  | st_warning b | st_error b | st_success b | st_subheader b | st_write b => [b]
  | st_code b l => [b; l]
  | st_download_button l d f => [l; d; f]
  end.

(** A text that has a UTF-8 encoding: no lone surrogate. *)
Definition encodable (t : str) : bool := negb (is_None (Utf8.encode t)).

Definition displayable (c : st_call) : bool := forallb encodable (call_texts c).

(** The tabs again, word for word, over a display call that raises
    [UnicodeEncodeError] when one of its texts has no encoding, as the real
    [st.code], [st.write] and the others do.  In Build, Modify, Edit and
    Ask the answer is shown before the [try] opens, so there the exception
    is caught by nothing. *)
Module Strict.

Definition st (c : st_call) : M unit :=
  fun _ w =>
    if displayable c then (log (Shown c) w, Val tt)
    else (w, Exc (Exception UnicodeEncodeError)).

Definition tab_build (prompt filename : str) (generate : bool) : M unit :=
  if generate then
    if negb (Py.truthy (Py.strip prompt)) then
      exec st (st_warning (lit "Please describe what to build."));
      st_stop
    else
      do code <- ask_model (build_messages prompt) (2 # 10);
      exec st (st_subheader (MEMO ++ lit " Generated code"));
      exec st (st_code code (lit "python"));
      try_except
        (do path <- save_text code filename;
         exec st (st_success (CHECK_MARK ++ lit " Code saved to " ++ path));
         exec st (st_download_button (lit "Download code file") code
                    (os_path.basename path));
         record_history (lit "Build Code") prompt filename path)
        (fun e => st (st_error (CROSS_MARK ++ lit " Failed to save file: " ++ e)))
  else ret tt.

Definition tab_modify (base_code change_request filename2 : str)
    (apply_changes : bool) : M unit :=
  if apply_changes then
    if negb (Py.truthy (Py.strip base_code)) then
      exec st (st_warning (lit "Please paste the code to modify."));
      st_stop
    else if negb (Py.truthy (Py.strip change_request)) then
      exec st (st_warning (lit "Please describe the changes you want."));
      st_stop
    else
      do updated <- ask_model (modify_messages base_code change_request) (2 # 10);
      exec st (st_subheader (MEMO ++ lit " Updated code"));
      exec st (st_code updated (lit "python"));
      try_except
        (do path <- save_text updated filename2;
         exec st (st_success (CHECK_MARK ++ lit " Updated code saved to " ++ path));
         exec st (st_download_button (lit "Download updated file") updated
                    (os_path.basename path));
         record_history (lit "Modify Code") change_request filename2 path)
        (fun e => st (st_error (CROSS_MARK ++ lit " Failed to save file: " ++ e)))
  else ret tt.

Definition tab_edit (content edit_request filename3 : str)
    (apply_edit : bool) : M unit :=
  if apply_edit then
    if negb (Py.truthy (Py.strip content)) then
      exec st (st_warning (lit "Please paste the content to edit."));
      st_stop
    else if negb (Py.truthy (Py.strip edit_request)) then
      exec st (st_warning (lit "Please describe the edit you want."));
      st_stop
    else
      do edited <- ask_model (edit_messages content edit_request) (2 # 10);
      exec st (st_subheader (MEMO ++ lit " Edited content"));
      exec st (st_code edited (lit "text"));
      try_except
        (do path <- save_text edited filename3;
         exec st (st_success (CHECK_MARK ++ lit " Edited content saved to " ++ path));
         exec st (st_download_button (lit "Download edited content") edited
                    (os_path.basename path));
         record_history (lit "Edit Anything") edit_request filename3 path)
        (fun e => st (st_error (CROSS_MARK ++ lit " Failed to save edited content: " ++ e)))
  else ret tt.

Definition tab_ask (question filename4 : str) (ask_button : bool) : M unit :=
  if ask_button then
    if negb (Py.truthy (Py.strip question)) then
      exec st (st_warning (lit "Please enter your question."));
      st_stop
    else
      do answer <- ask_model (ask_messages question) (0 # 1);
      exec st (st_subheader (BRAIN ++ lit " Answer"));
      exec st (st_write answer);
      if Py.truthy (Py.strip filename4) then
        try_except
          (do path <- save_text answer filename4;
           exec st (st_success (CHECK_MARK ++ lit " Answer saved to " ++ path));
           exec st (st_download_button (lit "Download answer") answer
                      (os_path.basename path));
           record_history (lit "Ask Anything") question filename4 path)
          (fun e => st (st_error (CROSS_MARK ++ lit " Failed to save answer: " ++ e)))
      else ret tt
  else ret tt.

Definition tab_voice (audio_file : option (str * bytes)) (filename5 : str)
    (process_audio : bool) : M unit :=
  if process_audio then
    match audio_file with
    | None =>
        exec st (st_warning (lit "Please upload an audio file."));
        st_stop
    | Some (name, data) =>
        try_except
          (do dir <- ask PROJECTS_DIR;
           let temp_path := temp_path_of dir name in
           exec write_file temp_path (Some data);
           do audio <- read_file temp_path;
           do text <- create_transcription audio;
           let transcript := Py.strip text in
           exec st (st_subheader (SPEAKING_HEAD ++ lit " Transcript"));
           exec st (st_write transcript);
           do reply <- ask_model (voice_messages transcript) (2 # 10);
           exec st (st_subheader (SPEECH_BALLOON ++ lit " Response"));
           exec st (st_write reply);
           let combined := combined_text transcript reply in
           do path <- save_text combined filename5;
           exec st (st_success (CHECK_MARK ++ lit " Transcript & response saved to " ++ path));
           exec st (st_download_button (lit "Download transcript & response")
                      combined (os_path.basename path));
           exec record_history (lit "Voice") transcript filename5 path;
           try_except (os_remove temp_path) (fun _ => ret tt))
          (fun e => st (st_error (CROSS_MARK ++ lit " Voice processing failed: " ++ e)))
    end
  else ret tt.

Definition run (s : submission) : M unit :=
  match s with
  | Build prompt filename => tab_build prompt filename true
  | Modify base_code change_request filename2 =>
      tab_modify base_code change_request filename2 true
  | Edit content edit_request filename3 =>
      tab_edit content edit_request filename3 true
  | Ask question filename4 => tab_ask question filename4 true
  | Voice audio_file filename5 => tab_voice audio_file filename5 true
  end.

(** The closing block of the Build, Modify, Edit and Ask tabs. *)
Definition persist (saved label mode failed : str) (text prompt filename : str)
  : M unit :=
  try_except
    (do path <- save_text text filename;
     exec st (st_success (CHECK_MARK ++ saved ++ path));
     exec st (st_download_button label text (os_path.basename path));
     record_history mode prompt filename path)
    (fun e => st (st_error (CROSS_MARK ++ failed ++ e))).

End Strict.

(** The events of a trace that show only texts the front end accepts. *)
Definition displayable_trace (t : list event) : bool :=
  forallb (fun ev => match ev with Shown c => displayable c | _ => true end) t.

(** What a run added to the trace. *)
Definition new_events (w w' : world) : list event :=
  drop (length (trace w)) (trace w').

(** Every text the run started in [w] shows has a UTF-8 encoding. *)
Definition run_displayable (e : env) (w : world) (s : submission) : bool :=
  displayable_trace (new_events w (fst (run s e w))).

(** ** Further sample data *)

Module Cases.

(** The model answers with a lone surrogate in its text. *)
Definition garbled : env :=
  {| PROJECTS_DIR := PROJECTS_DIR Sample.healthy;
     now := now Sample.healthy;
     chat_completions_create := fun _ _ => Returns [Some [104; 0xD800; 105]];
     audio_transcriptions_create := audio_transcriptions_create Sample.healthy;
     open_error := fun _ => None;
     flush_error := fun _ => None;
     remove_error := fun _ => None |}.

(** A session that already holds one artifact and its record. *)
Definition earlier_record : History.record :=
  {| History.mode := lit "Build Code"; History.prompt := lit "Build a CLI";
     History.filename := lit "app.py";
     History.path := lit "/srv/app/projects/20240306_180000_app.py";
     History.time := lit "2024-03-06 18:00:00" |}.

Definition used : world :=
  {| files := {[ lit "/srv/app/projects/20240306_180000_app.py" := lit "print(0)" ]};
     history := [earlier_record]; trace := []; clock_reads := 0 |}.

End Cases.

(** * Properties *)

(** ** Text *)

Section TextFacts.

Lemma isspace_in_class c : in_class c = true -> Py.isspace c = false.
Proof.
  unfold in_class, Py.isspace. intros H.
  apply not_true_is_false. intros S. revert H S.
  rewrite !orb_true_iff, !andb_true_iff, !N.leb_le, !N.eqb_eq. lia.
Qed.

Lemma lstrip_app a b :
  Py.lstrip (a ++ b) =
  match Py.lstrip a with [] => Py.lstrip b | _ :: _ => Py.lstrip a ++ b end.
Proof.
  induction a as [|c a IH]; simpl; [reflexivity|].
  destruct (Py.isspace c); [exact IH | reflexivity].
Qed.

Lemma lstrip_nil_iff s : Py.lstrip s = [] <-> forallb Py.isspace s = true.
Proof.
  induction s as [|c s IH]; simpl; [tauto|].
  destruct (Py.isspace c); simpl; [exact IH | split; discriminate].
Qed.

(** What is left of a left-trimmed text does not open with a blank. *)
Lemma lstrip_head s :
  match Py.lstrip s with [] => True | c :: _ => Py.isspace c = false end.
Proof.
  induction s as [|c s IH]; simpl; [exact I|].
  destruct (Py.isspace c) eqn:E; [exact IH | exact E].
Qed.

Lemma rstrip_cons c s :
  Py.rstrip (c :: s) =
  if Py.isspace c && negb (Py.truthy (Py.rstrip s)) then [] else c :: Py.rstrip s.
Proof.
  unfold Py.rstrip. simpl rev at 2. rewrite lstrip_app.
  destruct (Py.lstrip (rev s)) as [|x l] eqn:E.
  - simpl. destruct (Py.isspace c); reflexivity.
  - assert (T : Py.truthy (rev (x :: l)) = true)
      by (simpl; destruct (rev l); reflexivity).
    rewrite T, andb_false_r, rev_app_distr. reflexivity.
Qed.

Lemma rstrip_nil_iff s : Py.rstrip s = [] <-> forallb Py.isspace s = true.
Proof.
  induction s as [|c s IH]; [simpl; tauto|].
  rewrite rstrip_cons. simpl forallb. rewrite andb_true_iff, <- IH.
  destruct (Py.isspace c), (Py.rstrip s); simpl; intuition congruence.
Qed.

Lemma strip_nil_iff s : Py.strip s = [] <-> forallb Py.isspace s = true.
Proof.
  unfold Py.strip. rewrite rstrip_nil_iff, <- (lstrip_nil_iff s).
  pose proof (lstrip_head s) as H.
  destruct (Py.lstrip s) as [|c l]; simpl; [split; reflexivity|].
  rewrite H. simpl. split; discriminate.
Qed.

(** Trimming leaves alone a text whose two ends are not blank; in
    particular every text without a blank. *)
Lemma lstrip_clean s :
  forallb (fun c => negb (Py.isspace c)) s = true -> Py.lstrip s = s.
Proof.
  destruct s as [|c s]; simpl; [reflexivity|].
  destruct (Py.isspace c); [discriminate | reflexivity].
Qed.

Lemma forallb_rev {A} (f : A -> bool) l : forallb f (rev l) = forallb f l.
Proof.
  induction l as [|a l IH]; simpl; [reflexivity|].
  rewrite forallb_app, IH. simpl. rewrite andb_true_r. apply andb_comm.
Qed.

Lemma strip_clean s :
  forallb (fun c => negb (Py.isspace c)) s = true -> Py.strip s = s.
Proof.
  intros H. unfold Py.strip, Py.rstrip.
  rewrite (lstrip_clean s H), lstrip_clean, rev_involutive; [reflexivity|].
  rewrite forallb_rev. exact H.
Qed.

(** Trimming takes away blanks only, and only at the two ends. *)
Lemma lstrip_decompose s :
  exists l, s = l ++ Py.lstrip s /\ forallb Py.isspace l = true.
Proof.
  induction s as [|c s (l & E & B)]; [exists []; split; reflexivity|].
  simpl. destruct (Py.isspace c) eqn:C.
  - exists (c :: l). simpl. rewrite C, B, <- E. split; reflexivity.
  - exists []. split; reflexivity.
Qed.

Lemma strip_decompose s :
  exists l r,
    s = l ++ Py.strip s ++ r
    /\ forallb Py.isspace l = true /\ forallb Py.isspace r = true.
Proof.
  destruct (lstrip_decompose s) as (l & El & Bl).
  destruct (lstrip_decompose (rev (Py.lstrip s))) as (r & Er & Br).
  exists l, (rev r). unfold Py.strip, Py.rstrip.
  rewrite forallb_rev. repeat split; [|assumption..].
  rewrite <- rev_app_distr, <- Er, rev_involutive. exact El.
Qed.

Lemma startswith_app p s : Py.startswith (p ++ s) p = true.
Proof.
  induction p as [|a p IH]; simpl; [reflexivity|].
  rewrite N.eqb_refl. exact IH.
Qed.

Lemma startswith_prefix s p :
  Py.startswith s p = true <-> exists t, s = p ++ t.
Proof.
  revert s. induction p as [|a p IH]; intros s; simpl.
  - split; eauto.
  - destruct s as [|b s].
    + split; [discriminate | intros [t Ht]; discriminate].
    + rewrite andb_true_iff, N.eqb_eq, IH. split.
      * intros [-> [t ->]]. eauto.
      * intros [t Ht]. injection Ht as -> ->. eauto.
Qed.

Lemma endswith_app s p : Py.endswith (s ++ p) p = true.
Proof. unfold Py.endswith. rewrite rev_app_distr. apply startswith_app. Qed.

Lemma endswith_suffix s p :
  Py.endswith s p = true <-> exists t, s = t ++ p.
Proof.
  unfold Py.endswith. rewrite startswith_prefix. split.
  - intros [t Ht]. exists (rev t).
    rewrite <- (rev_involutive s), Ht, rev_app_distr, rev_involutive.
    reflexivity.
  - intros [t ->]. exists (rev t). apply rev_app_distr.
Qed.

Lemma or_empty_id s : Py.or_empty s = s.
Proof. destruct s; reflexivity. Qed.

Lemma truthy_false_iff s : Py.truthy s = false <-> s = [].
Proof. destruct s; simpl; split; congruence. Qed.

End TextFacts.

(** ** Filename sanitizer *)

Section Sanitizer.

Lemma re_sub_unsafe_in_class s : forallb in_class (re_sub_unsafe s) = true.
Proof.
  induction s as [|c s IH]; simpl; [reflexivity|].
  rewrite IH, andb_true_r.
  destruct (in_class c) eqn:E; [exact E | reflexivity].
Qed.

Lemma re_sub_unsafe_fixed s :
  forallb in_class s = true -> re_sub_unsafe s = s.
Proof.
  induction s as [|c s IH]; simpl; [reflexivity|].
  rewrite andb_true_iff. intros [Hc Hs]. rewrite Hc, (IH Hs). reflexivity.
Qed.

Lemma in_class_clean s :
  forallb in_class s = true ->
  forallb (fun c => negb (Py.isspace c)) s = true.
Proof.
  rewrite !forallb_forall. intros H c Hc.
  rewrite (isspace_in_class c (H c Hc)). reflexivity.
Qed.

Lemma sanitize_filename_in_class n :
  forallb in_class (sanitize_filename n) = true.
Proof.
  unfold sanitize_filename.
  destruct (negb (Py.truthy (Py.strip (Py.or_empty n)))); [reflexivity|].
  destruct (negb (Py.endswith _ _)).
  - rewrite forallb_app, re_sub_unsafe_in_class. reflexivity.
  - apply re_sub_unsafe_in_class.
Qed.

Lemma sanitize_filename_endswith n :
  Py.endswith (sanitize_filename n) (lit ".py") = true.
Proof.
  unfold sanitize_filename.
  destruct (negb (Py.truthy (Py.strip (Py.or_empty n)))); [reflexivity|].
  destruct (Py.endswith (re_sub_unsafe _) _) eqn:E; simpl.
  - exact E.
  - apply endswith_app.
Qed.

Lemma sanitize_filename_truthy n : Py.truthy (sanitize_filename n) = true.
Proof.
  pose proof (sanitize_filename_endswith n) as H.
  apply endswith_suffix in H as [t Ht]. rewrite Ht.
  destruct t; reflexivity.
Qed.

(** The trimming of the specification is the trimming of [str.strip]. *)
Lemma strip_trailing_rstrip s : SpecWords.strip_trailing s = Py.rstrip s.
Proof.
  induction s as [|c s IH]; [reflexivity|].
  rewrite rstrip_cons, <- IH. reflexivity.
Qed.

Lemma strip_leading_lstrip s : SpecWords.strip_leading s = Py.lstrip s.
Proof.
  unfold SpecWords.strip_leading. rewrite strip_trailing_rstrip.
  unfold Py.rstrip. rewrite !rev_involutive. reflexivity.
Qed.

Lemma sanitize_filename_refines n :
  sanitize_filename n = SpecWords.sanitize n.
Proof.
  unfold sanitize_filename, SpecWords.sanitize, SpecWords.with_extension.
  rewrite or_empty_id, strip_trailing_rstrip, strip_leading_lstrip.
  fold (Py.strip n). unfold SpecWords.whitespace_only.
  destruct (forallb Py.isspace n) eqn:W.
  - apply strip_nil_iff in W. rewrite W. reflexivity.
  - destruct (Py.strip n) as [|c s] eqn:E.
    + apply strip_nil_iff in E. congruence.
    + cbn [Py.truthy negb]. fold (re_sub_unsafe (c :: s)).
      destruct (Py.endswith _ _); reflexivity.
Qed.

End Sanitizer.

Section SanitizerClaims.

Lemma sanitize_filename_fixed r :
  forallb in_class r = true ->
  Py.endswith r (lit ".py") = true ->
  sanitize_filename r = r.
Proof.
  intros Hc He. unfold sanitize_filename.
  rewrite or_empty_id, (strip_clean r (in_class_clean r Hc)).
  assert (T : Py.truthy r = true).
  { apply endswith_suffix in He as [t ->]. destruct t; reflexivity. }
  rewrite T, (re_sub_unsafe_fixed r Hc), He. reflexivity.
Qed.

(** C2. For every requested name, the sanitized name holds only letters,
    digits, underscore, hyphen and dot, ends with ".py", and is what the
    specification describes: "app.py" for an empty or whitespace-only
    name, and otherwise the trimmed name with every other character
    turned into an underscore and ".py" appended unless already there. *)
Theorem sanitize_filename_sound (n : str) :
  forallb in_class (sanitize_filename n) = true
  /\ Py.endswith (sanitize_filename n) (lit ".py") = true
  /\ sanitize_filename n = SpecWords.sanitize n.
Proof.
  split; [apply sanitize_filename_in_class|].
  split; [apply sanitize_filename_endswith|].
  apply sanitize_filename_refines.
Qed.

(** C10. Sanitizing is idempotent: a sanitized name is not empty, holds
    only characters of the class and already ends with ".py", so a second
    pass leaves it as it is. *)
Theorem sanitize_filename_idempotent (n : str) :
  sanitize_filename (sanitize_filename n) = sanitize_filename n.
Proof.
  apply sanitize_filename_fixed.
  - apply sanitize_filename_in_class.
  - apply sanitize_filename_endswith.
Qed.

End SanitizerClaims.

(** ** UTF-8 *)

Section Utf8Facts.

#[local] Ltac Zify.zify_post_hook ::= Z.to_euclidean_division_equations.

Local Ltac settle_test :=
  match goal with
  | |- context [N.ltb ?a ?b] =>
      first [ replace (N.ltb a b) with true by (symmetry; apply N.ltb_lt; lia)
            | replace (N.ltb a b) with false by (symmetry; apply N.ltb_ge; lia) ]
  | |- context [N.leb ?a ?b] =>
      first [ replace (N.leb a b) with true by (symmetry; apply N.leb_le; lia)
            | replace (N.leb a b) with false by (symmetry; apply N.leb_gt; lia) ]
  end.

Lemma decode_encode_char c b rest :
  Utf8.encode_char c = Some b ->
  Utf8.decode (b ++ rest) = cons c <$> Utf8.decode rest.
Proof.
  unfold Utf8.encode_char, Utf8.is_surrogate.
  destruct (N.ltb_spec c 0x80) as [H1|H1].
  { intros [= <-]. cbn [app Utf8.decode]. repeat settle_test. reflexivity. }
  destruct (N.ltb_spec c 0x800) as [H2|H2].
  { intros [= <-]. cbn [app Utf8.decode]. unfold Utf8.is_cont.
    repeat settle_test. cbn [andb]. do 2 f_equal. lia. }
  destruct (N.ltb_spec c 0x10000) as [H3|H3].
  { destruct (N.leb_spec 0xD800 c) as [H4|H4];
      [destruct (N.leb_spec c 0xDFFF) as [H5|H5]|]; cbn [andb];
      try discriminate.
    - intros [= <-]. cbn [app Utf8.decode].
      unfold Utf8.is_cont, Utf8.is_surrogate.
      repeat settle_test. cbn [andb negb]. do 2 f_equal. lia.
    - intros [= <-]. cbn [app Utf8.decode].
      unfold Utf8.is_cont, Utf8.is_surrogate.
      repeat settle_test. cbn [andb negb]. do 2 f_equal. lia. }
  destruct (N.ltb_spec c 0x110000) as [H4|H4]; [|discriminate].
  intros [= <-]. cbn [app Utf8.decode]. unfold Utf8.is_cont.
  repeat settle_test. cbn [andb]. do 2 f_equal. lia.
Qed.

(** Decoding undoes encoding, whenever the text can be encoded. *)
Lemma decode_encode s bs :
  Utf8.encode s = Some bs -> Utf8.decode bs = Some s.
Proof.
  revert bs. induction s as [|c s IH]; intros bs; simpl.
  - intros [= <-]. reflexivity.
  - destruct (Utf8.encode_char c) as [b|] eqn:Ec; [|discriminate].
    destruct (Utf8.encode s) as [bs'|]; [|discriminate].
    intros [= <-]. rewrite (decode_encode_char c b bs' Ec), (IH bs' eq_refl).
    reflexivity.
Qed.

(** No text encodes to nothing but the empty text. *)
Lemma encode_nil s : Utf8.encode s = Some [] -> s = [].
Proof.
  destruct s as [|c s]; [reflexivity|]. simpl.
  destruct (Utf8.encode_char c) as [b|] eqn:Ec; [|discriminate].
  destruct (Utf8.encode s) as [bs'|]; [|discriminate].
  intros [= H]. apply app_eq_nil in H as [-> _].
  revert Ec. unfold Utf8.encode_char.
  repeat match goal with |- context [if ?x then _ else _] => destruct x end;
    discriminate.
Qed.

End Utf8Facts.

(** ** Paths and timestamps *)

Section PathFacts.

#[local] Ltac Zify.zify_post_hook ::= Z.to_euclidean_division_equations.

Lemma digit_range n : 48 <= Datetime.digit n <= 57.
Proof. unfold Datetime.digit. lia. Qed.

Lemma digit_not_sep n : (os_path.sep =? Datetime.digit n) = false.
Proof. apply N.eqb_neq. pose proof (digit_range n). unfold os_path.sep. lia. Qed.

Lemma pad2_inj a b :
  a < 100 -> b < 100 -> Datetime.pad2 a = Datetime.pad2 b -> a = b.
Proof.
  unfold Datetime.pad2, Datetime.digit. intros Ha Hb [= H1 H2]. lia.
Qed.

(** A number below ten thousand is the sum of its four decimal digits. *)
Lemma four_digits n :
  n < 10000 ->
  n = 1000 * ((n / 1000) mod 10) + 100 * ((n / 100) mod 10)
      + 10 * ((n / 10) mod 10) + n mod 10.
Proof.
  intros Hn.
  assert (E2 : n / 100 = n / 10 / 10)
    by (rewrite N.Div0.div_div; reflexivity).
  assert (E3 : n / 1000 = n / 10 / 10 / 10)
    by (rewrite !N.Div0.div_div; reflexivity).
  rewrite E2, E3. lia.
Qed.

Lemma pad4_inj a b :
  a < 10000 -> b < 10000 -> Datetime.pad4 a = Datetime.pad4 b -> a = b.
Proof.
  unfold Datetime.pad4, Datetime.digit. intros Ha Hb [= H1 H2 H3 H4].
  rewrite (four_digits a Ha), (four_digits b Hb).
  apply N.add_cancel_l in H1, H2, H3, H4. rewrite H1, H2, H3, H4.
  reflexivity.
Qed.

Lemma stamp_length d : length (Datetime.strftime_stamp d) = 15%nat.
Proof. reflexivity. Qed.

Lemma valid_bounds d :
  Datetime.valid d = true ->
  year d < 10000 /\ month d < 100 /\ day d < 100
  /\ hour d < 100 /\ minute d < 100 /\ second d < 100.
Proof.
  unfold Datetime.valid.
  rewrite !andb_true_iff, !N.leb_le, !N.ltb_lt. lia.
Qed.

(** Within the field ranges, the stamp determines the second. *)
Lemma stamp_inj d1 d2 :
  Datetime.valid d1 = true -> Datetime.valid d2 = true ->
  Datetime.strftime_stamp d1 = Datetime.strftime_stamp d2 ->
  Datetime.to_second d1 = Datetime.to_second d2.
Proof.
  intros V1 V2 H.
  apply valid_bounds in V1 as (Y1 & M1 & D1 & h1 & m1 & s1).
  apply valid_bounds in V2 as (Y2 & M2 & D2 & h2 & m2 & s2).
  unfold Datetime.strftime_stamp in H.
  apply app_inj_1 in H as [Hy H]; [|reflexivity].
  apply app_inj_1 in H as [Hm H]; [|reflexivity].
  apply app_inj_1 in H as [Hd H]; [|reflexivity].
  apply app_inj_1 in H as [_ H]; [|reflexivity].
  apply app_inj_1 in H as [Hh H]; [|reflexivity].
  apply app_inj_1 in H as [Hmi Hs]; [|reflexivity].
  unfold Datetime.to_second.
  rewrite (pad4_inj _ _ Y1 Y2 Hy), (pad2_inj _ _ M1 M2 Hm),
    (pad2_inj _ _ D1 D2 Hd), (pad2_inj _ _ h1 h2 Hh),
    (pad2_inj _ _ m1 m2 Hmi), (pad2_inj _ _ s1 s2 Hs).
  reflexivity.
Qed.

Lemma stamp_to_second d1 d2 :
  Datetime.to_second d1 = Datetime.to_second d2 ->
  Datetime.strftime_stamp d1 = Datetime.strftime_stamp d2.
Proof.
  unfold Datetime.to_second, Datetime.strftime_stamp.
  intros [= -> -> -> -> -> ->]. reflexivity.
Qed.

Lemma stamp_relative d x :
  Py.startswith (Datetime.strftime_stamp d ++ x) [os_path.sep] = false.
Proof.
  unfold Datetime.strftime_stamp, Datetime.pad4. cbn [app Py.startswith].
  rewrite digit_not_sep. reflexivity.
Qed.

(** Joining a relative name puts it behind a prefix that depends on the
    directory alone. *)
Lemma join_relative a b :
  Py.startswith b [os_path.sep] = false ->
  os_path.join a b = os_path.join a [] ++ b.
Proof.
  intros H. unfold os_path.join. rewrite H. cbn [Py.startswith].
  destruct (negb (Py.truthy a) || Py.endswith a [os_path.sep]).
  - rewrite app_nil_r. reflexivity.
  - rewrite <- !app_assoc. reflexivity.
Qed.

Lemma artifact_path_unfold dir d f :
  artifact_path dir d f =
  os_path.join dir [] ++ Datetime.strftime_stamp d ++ lit "_" ++ sanitize_filename f.
Proof. unfold artifact_path. apply join_relative, stamp_relative. Qed.

Lemma temp_path_unfold dir name :
  temp_path_of dir name = os_path.join dir [] ++ lit "temp_" ++ name.
Proof. unfold temp_path_of. apply join_relative. reflexivity. Qed.

(** The temporary copy of an upload is never the artifact. *)
Lemma temp_path_not_artifact dir name d f :
  temp_path_of dir name <> artifact_path dir d f.
Proof.
  rewrite temp_path_unfold, artifact_path_unfold. intros H.
  apply app_inv_head in H. revert H.
  unfold Datetime.strftime_stamp, Datetime.pad4. cbn [app].
  change (lit "temp_" ++ name) with (116 :: lit "emp_" ++ name).
  intros [= H _]. pose proof (digit_range (year d / 1000)). lia.
Qed.

Lemma artifact_path_inj dir d1 d2 f1 f2 :
  artifact_path dir d1 f1 = artifact_path dir d2 f2 ->
  Datetime.strftime_stamp d1 = Datetime.strftime_stamp d2
  /\ sanitize_filename f1 = sanitize_filename f2.
Proof.
  rewrite !artifact_path_unfold. intros H.
  apply app_inv_head in H.
  apply app_inj_1 in H as [Hs H]; [|reflexivity].
  apply app_inv_head in H. split; assumption.
Qed.

End PathFacts.

(** ** Steps *)

Section Steps.

Lemma ask_model_run messages temperature e w :
  ask_model messages temperature e w =
  (log (CompletionRequest (lit "gpt-3.5-turbo") messages temperature) w,
   Val (completion_text (chat_completions_create e messages temperature))).
Proof.
  unfold ask_model, try_except, create_completion, bind, emit, ask,
    completion_text, completion_failure.
  destruct (chat_completions_create e messages temperature) as [[|[c|] l]|msg];
    reflexivity.
Qed.

Lemma save_text_run text filename e w :
  save_text text filename e w =
  let p := artifact_path (PROJECTS_DIR e) (now e (clock_reads w)) filename in
  match open_error e p with
  | Some msg => (tick w, Exc (Exception msg))
  | None =>
      match Utf8.encode text with
      | None =>
          (with_files (<[p := []]> (files w)) (tick w),
           Exc (Exception UnicodeEncodeError))
      | Some bs =>
          match flush_error e p with
          | Some msg =>
              (with_files (<[p := []]> (files w)) (tick w), Exc (Exception msg))
          | None => (with_files (<[p := bs]> (files w)) (tick w), Val p)
          end
      end
  end.
Proof.
  unfold save_text, write_file, bind, datetime_now, ask, get_files,
    set_files, raise, ret. cbn beta iota zeta.
  destruct (open_error e _); [reflexivity|]. cbn beta iota.
  destruct (Utf8.encode text); [|reflexivity].
  destruct (flush_error e _); reflexivity.
Qed.

(** A save never changes the history or the trace, and only raises
    ordinary exceptions. *)
Lemma save_text_frame text filename e w w' r :
  save_text text filename e w = (w', r) ->
  history w' = history w /\ trace w' = trace w
  /\ clock_reads w' = S (clock_reads w) /\ r <> Exc StopException.
Proof.
  rewrite save_text_run. cbn zeta.
  destruct (open_error e _); [intros [= <- <-]; repeat split; discriminate|].
  destruct (Utf8.encode text);
    [|intros [= <- <-]; repeat split; discriminate].
  destruct (flush_error e _); intros [= <- <-]; repeat split; discriminate.
Qed.

Lemma persist_run saved label mode failed text prompt filename e w :
  persist saved label mode failed text prompt filename e w =
  match save_text text filename e w with
  | (w1, Val path) =>
      (appended
         {| History.mode := mode; History.prompt := prompt;
            History.filename := filename; History.path := path;
            History.time := Datetime.strftime_iso (now e (clock_reads w1)) |}
         (tick
            (log (Shown (st_download_button label text (os_path.basename path)))
               (log (Shown (st_success (CHECK_MARK ++ saved ++ path))) w1))),
       Val tt)
  | (w1, Exc (Exception msg)) =>
      (log (Shown (st_error (CROSS_MARK ++ failed ++ msg))) w1, Val tt)
  | (w1, Exc StopException) => (w1, Exc StopException)
  end.
Proof.
  unfold persist, try_except, bind.
  destruct (save_text text filename e w) as [w1 [path|[msg|]]]; reflexivity.
Qed.

End Steps.

(** ** Runs, tab by tab *)

Section Runs.

Lemma bind_run {A B} (m : M A) (k : A -> M B) e w :
  bind m k e w =
  match m e w with
  | (w', Val a) => k a e w'
  | (w', Exc x) => (w', Exc x)
  end.
Proof. reflexivity. Qed.

Lemma build_run p f e w :
  run (Build p f) e w =
  if blank p then refused (lit "Please describe what to build.") w
  else
    let text := completion_text (chat_completions_create e (build_messages p) (2 # 10)) in
    persist (lit " Code saved to ") (lit "Download code file")
      (lit "Build Code") (lit " Failed to save file: ") text p f e
      (answered
         (CompletionRequest (lit "gpt-3.5-turbo") (build_messages p) (2 # 10))
         (MEMO ++ lit " Generated code") (st_code text (lit "python")) w).
Proof.
  unfold run, tab_build, blank.
  destruct (negb (Py.truthy (Py.strip p))); [reflexivity|].
  rewrite bind_run, ask_model_run. reflexivity.
Qed.

Lemma modify_run b c f e w :
  run (Modify b c f) e w =
  if blank b then refused (lit "Please paste the code to modify.") w
  else if blank c then refused (lit "Please describe the changes you want.") w
  else
    let text := completion_text (chat_completions_create e (modify_messages b c) (2 # 10)) in
    persist (lit " Updated code saved to ") (lit "Download updated file")
      (lit "Modify Code") (lit " Failed to save file: ") text c f e
      (answered
         (CompletionRequest (lit "gpt-3.5-turbo") (modify_messages b c) (2 # 10))
         (MEMO ++ lit " Updated code") (st_code text (lit "python")) w).
Proof.
  unfold run, tab_modify, blank.
  destruct (negb (Py.truthy (Py.strip b))); [reflexivity|].
  destruct (negb (Py.truthy (Py.strip c))); [reflexivity|].
  rewrite bind_run, ask_model_run. reflexivity.
Qed.

Lemma edit_run c r f e w :
  run (Edit c r f) e w =
  if blank c then refused (lit "Please paste the content to edit.") w
  else if blank r then refused (lit "Please describe the edit you want.") w
  else
    let text := completion_text (chat_completions_create e (edit_messages c r) (2 # 10)) in
    persist (lit " Edited content saved to ") (lit "Download edited content")
      (lit "Edit Anything") (lit " Failed to save edited content: ") text r f e
      (answered
         (CompletionRequest (lit "gpt-3.5-turbo") (edit_messages c r) (2 # 10))
         (MEMO ++ lit " Edited content") (st_code text (lit "text")) w).
Proof.
  unfold run, tab_edit, blank.
  destruct (negb (Py.truthy (Py.strip c))); [reflexivity|].
  destruct (negb (Py.truthy (Py.strip r))); [reflexivity|].
  rewrite bind_run, ask_model_run. reflexivity.
Qed.

Lemma ask_run q f e w :
  run (Ask q f) e w =
  if blank q then refused (lit "Please enter your question.") w
  else
    let text := completion_text (chat_completions_create e (ask_messages q) (0 # 1)) in
    let w1 :=
      answered
        (CompletionRequest (lit "gpt-3.5-turbo") (ask_messages q) (0 # 1))
        (BRAIN ++ lit " Answer") (st_write text) w in
    if blank f then (w1, Val tt)
    else
      persist (lit " Answer saved to ") (lit "Download answer")
        (lit "Ask Anything") (lit " Failed to save answer: ") text q f e w1.
Proof.
  unfold run, tab_ask, blank.
  destruct (negb (Py.truthy (Py.strip q))); [reflexivity|].
  rewrite bind_run, ask_model_run. cbn zeta.
  destruct (Py.truthy (Py.strip f)); reflexivity.
Qed.

Lemma voice_run name data f e w :
  run (Voice (Some (name, data)) f) e w =
  let t := temp_path_of (PROJECTS_DIR e) name in
  match open_error e t with
  | Some msg => voice_failed msg w
  | None =>
      match flush_error e t with
      | Some msg => voice_failed msg (with_files (<[t := []]> (files w)) w)
      | None =>
          match audio_transcriptions_create e data with
          | Fails msg =>
              voice_failed msg
                (log (TranscriptionRequest (lit "whisper-1") data)
                   (with_files (<[t := data]> (files w)) w))
          | Returns text =>
              let transcript := Py.strip text in
              let reply := completion_text
                (chat_completions_create e (voice_messages transcript) (2 # 10)) in
              let combined := combined_text transcript reply in
              match save_text combined f e (voiced e name data text w) with
              | (w3, Val path) =>
                  (cleaned e t
                     (appended
                        {| History.mode := lit "Voice";
                           History.prompt := transcript;
                           History.filename := f; History.path := path;
                           History.time :=
                             Datetime.strftime_iso (now e (clock_reads w3)) |}
                        (tick
                           (log (Shown (st_download_button
                                          (lit "Download transcript & response")
                                          combined (os_path.basename path)))
                              (log (Shown (st_success
                                             (CHECK_MARK
                                              ++ lit " Transcript & response saved to "
                                              ++ path))) w3)))),
                   Val tt)
              | (w3, Exc (Exception msg)) => voice_failed msg w3
              | (w3, Exc StopException) => (w3, Exc StopException)
              end
          end
      end
  end.
Proof.
  unfold run, tab_voice, voice_failed, voiced, answered, cleaned,
    record_history, os_remove, write_file, read_file, create_transcription,
    st, emit, try_except, bind, ask, get_files, set_files, raise, ret,
    datetime_now, history_append.
  cbn beta iota zeta.
  destruct (open_error e _) as [msg|]; [reflexivity|].
  destruct (flush_error e _) as [msg|]; [reflexivity|].
  cbn [files with_files]. rewrite lookup_insert_eq.
  destruct (audio_transcriptions_create e data) as [text|msg]; [|reflexivity].
  rewrite ask_model_run.
  destruct (save_text _ f e _) as [w3 [path|[msg|]]]; [|reflexivity..].
  destruct (remove_error e _) as [msg|]; [reflexivity|].
  cbn [files appended tick log with_files].
  destruct (files w3 !! _); reflexivity.
Qed.

End Runs.

(** ** Artifact store *)

Section ArtifactStore.

Lemma save_text_succeeds text filename e w bs :
  let p := artifact_path (PROJECTS_DIR e) (now e (clock_reads w)) filename in
  open_error e p = None -> flush_error e p = None ->
  Utf8.encode text = Some bs ->
  save_text text filename e w =
  (with_files (<[p := bs]> (files w)) (tick w), Val p).
Proof.
  intros p Ho Hf He. rewrite save_text_run. fold p.
  cbn zeta. rewrite Ho, He, Hf. reflexivity.
Qed.


Lemma save_text_returns text filename e w w' path :
  save_text text filename e w = (w', Val path) ->
  path = artifact_path (PROJECTS_DIR e) (now e (clock_reads w)) filename
  /\ exists bs, Utf8.encode text = Some bs
                /\ w' = with_files (<[path := bs]> (files w)) (tick w).
Proof.
  rewrite save_text_run. cbn zeta.
  destruct (open_error e _); [discriminate|].
  destruct (Utf8.encode text) as [bs|]; [|discriminate].
  destruct (flush_error e _); [discriminate|].
  intros [= <- <-]. eauto.
Qed.

Lemma save_text_written text filename e w w' path :
  save_text text filename e w = (w', Val path) ->
  files w' !! path = Utf8.encode text /\ read_text w' path = Some text.
Proof.
  intros H. apply save_text_returns in H as (_ & bs & He & ->).
  unfold read_text. cbn [files with_files].
  rewrite lookup_insert_eq, He. split; [reflexivity|].
  apply decode_encode, He.
Qed.

(** C9. Two saves of the same requested name whose stamps differ in the
    second return two distinct paths; two saves in the same second whose
    sanitized names are the same return one path, and the file then
    holds what the second save wrote. *)
Theorem save_text_paths (c1 c2 n1 n2 : str) e w1 w2 w1' w2' p1 p2 :
  let d1 := now e (clock_reads w1) in
  let d2 := now e (clock_reads w2) in
  Datetime.valid d1 = true -> Datetime.valid d2 = true ->
  save_text c1 n1 e w1 = (w1', Val p1) ->
  save_text c2 n2 e w2 = (w2', Val p2) ->
  (n1 = n2 -> Datetime.to_second d1 <> Datetime.to_second d2 -> p1 <> p2)
  /\ (Datetime.to_second d1 = Datetime.to_second d2 ->
      sanitize_filename n1 = sanitize_filename n2 ->
      p1 = p2 /\ read_text w2' p1 = Some c2).
Proof.
  intros d1 d2 V1 V2 S1 S2.
  pose proof (save_text_written _ _ _ _ _ _ S2) as [_ R2].
  apply save_text_returns in S1 as (-> & _).
  apply save_text_returns in S2 as (-> & _).
  fold d1 d2 in R2 |- *. split.
  - intros _ Hne Heq. apply Hne.
    apply artifact_path_inj in Heq as [Hs _].
    apply stamp_inj; assumption.
  - intros Hs Hn.
    assert (E : artifact_path (PROJECTS_DIR e) d1 n1
                = artifact_path (PROJECTS_DIR e) d2 n2).
    { rewrite !artifact_path_unfold, (stamp_to_second _ _ Hs), Hn.
      reflexivity. }
    split; [exact E|]. rewrite E. exact R2.
Qed.

End ArtifactStore.

(** ** Validation *)

Section Validation.

Lemma answered_trace request title body w :
  trace (answered request title body w) =
  trace w ++ [request; Shown (st_subheader title); Shown body].
Proof. unfold answered, log. cbn [trace]. rewrite <- !app_assoc. reflexivity. Qed.

Lemma missing_input_refused s e w warning :
  missing_input s = Some warning -> run s e w = refused warning w.
Proof.
  destruct s as [p f|b c f|c r f|q f|a f]; cbn [missing_input];
    try discriminate.
  - rewrite build_run. destruct (blank p); [|discriminate].
    intros [= <-]. reflexivity.
  - rewrite modify_run. destruct (blank b); [intros [= <-]; reflexivity|].
    destruct (blank c); [|discriminate]. intros [= <-]. reflexivity.
  - rewrite edit_run. destruct (blank c); [intros [= <-]; reflexivity|].
    destruct (blank r); [|discriminate]. intros [= <-]. reflexivity.
Qed.

(** C4. A Build, Modify or Edit run with a blank primary input is
    rejected: the script stops after showing the warning that names the
    missing field, and that warning is all that happened, so no completion
    request was sent, no file was written and the history is as before. *)
Theorem blank_input_rejected (s : submission) e w warning :
  missing_input s = Some warning ->
  snd (run s e w) = Exc StopException
  /\ trace (fst (run s e w)) = trace w ++ [Shown (st_warning warning)]
  /\ files (fst (run s e w)) = files w
  /\ history (fst (run s e w)) = history w.
Proof.
  intros H. rewrite (missing_input_refused s e w warning H).
  repeat split.
Qed.


End Validation.

(** ** Persisting and recording *)

Section Persisting.




Lemma persist_succeeds saved label mode failed text prompt filename e w bs :
  let p := artifact_path (PROJECTS_DIR e) (now e (clock_reads w)) filename in
  open_error e p = None -> flush_error e p = None ->
  Utf8.encode text = Some bs ->
  exists w' rec,
    persist saved label mode failed text prompt filename e w = (w', Val tt)
    /\ files w' = <[p := bs]> (files w)
    /\ history w' = history w ++ [rec]
    /\ History.path rec = p /\ History.mode rec = mode
    /\ History.prompt rec = prompt /\ History.filename rec = filename.
Proof.
  intros p Ho Hf He. rewrite persist_run.
  rewrite (save_text_succeeds text filename e w bs Ho Hf He).
  do 2 eexists. split; [reflexivity|]. repeat split.
Qed.



End Persisting.

(** ** Voice *)

Section VoiceFacts.

Lemma snoc_not_self {A} (l : list A) x : l <> l ++ [x].
Proof.
  intros H. apply (f_equal length) in H.
  rewrite length_app in H. cbn in H. lia.
Qed.

Lemma cleaned_other e t w p :
  t <> p -> files (cleaned e t w) !! p = files w !! p.
Proof.
  intros Hne. unfold cleaned.
  destruct (remove_error e t); [reflexivity|].
  destruct (files w !! t); [|reflexivity].
  cbn [files with_files]. apply lookup_delete_ne, Hne.
Qed.

Lemma cleaned_history e t w : history (cleaned e t w) = history w.
Proof.
  unfold cleaned. destruct (remove_error e t); [reflexivity|].
  destruct (files w !! t); reflexivity.
Qed.

(** When the removal itself works, the temporary copy is gone. *)
Lemma cleaned_gone e t w :
  remove_error e t = None -> files (cleaned e t w) !! t = None.
Proof.
  intros H. unfold cleaned. rewrite H.
  destruct (files w !! t) eqn:E; [|exact E].
  cbn [files with_files]. apply lookup_delete_eq.
Qed.

Local Ltac no_record :=
  cbn [fst voice_failed voiced answered log history with_files];
  let H := fresh in
  intros H; exfalso; exact (snoc_not_self _ _ H).

(** C7. A Voice run that completes, that is, one that records its entry
    in the history, has persisted, at the path the entry points to, the
    literal concatenation of "Transcript:", the transcript, "Response:"
    and the reply of the completion client, with the newlines of the
    source. *)
Theorem voice_artifact_content (name : str) (data : bytes) (filename5 : str)
    e w rec :
  history (fst (run (Voice (Some (name, data)) filename5) e w))
  = history w ++ [rec] ->
  exists text,
    audio_transcriptions_create e data = Returns text
    /\ let transcript := Py.strip text in
       let reply := completion_text
         (chat_completions_create e (voice_messages transcript) (2 # 10)) in
       (forall w0,
           snd (ask_model (voice_messages transcript) (2 # 10) e w0) = Val reply)
       /\ History.prompt rec = transcript
       /\ read_text (fst (run (Voice (Some (name, data)) filename5) e w))
            (History.path rec)
          = Some (lit "Transcript:" ++ nl ++ transcript ++ nl ++ nl
                  ++ lit "Response:" ++ nl ++ reply).
Proof.
  rewrite voice_run. cbn zeta.
  destruct (open_error e _) as [m|]; [no_record|].
  destruct (flush_error e _) as [m|]; [no_record|].
  destruct (audio_transcriptions_create e data) as [text|m]; [|no_record].
  destruct (save_text _ filename5 e _) as [w3 [path|[m|]]] eqn:S.
  - intros H. exists text. split; [reflexivity|].
    split; [intros w0; rewrite ask_model_run; reflexivity|].
    cbn [fst] in H |- *. rewrite cleaned_history in H.
    pose proof (save_text_written _ _ _ _ _ _ S) as [_ Rd].
    apply save_text_returns in S as (Hp & bs & He & Hw).
    cbn [history appended tick log] in H. rewrite Hw in H.
    cbn [history with_files tick] in H.
    apply app_inv_head in H. injection H as <-.
    cbn [History.prompt History.path].
    split; [reflexivity|].
    unfold read_text. rewrite cleaned_other.
    + exact Rd.
    + rewrite Hp. apply temp_path_not_artifact.
  - apply save_text_frame in S as (Hh & _).
    cbn [fst voice_failed log history]. rewrite Hh. no_record.
  - apply save_text_frame in S as (_ & _ & _ & Hn). contradiction.
Qed.

(** X18. A Voice run that completes has removed its temporary copy, unless
    the removal itself failed. *)
Lemma voice_success_removes_temp name data f e w rec :
  let t := temp_path_of (PROJECTS_DIR e) name in
  history (fst (run (Voice (Some (name, data)) f) e w)) = history w ++ [rec] ->
  remove_error e t = None ->
  files (fst (run (Voice (Some (name, data)) f) e w)) !! t = None.
Proof.
  intros t. rewrite voice_run. cbn zeta. fold t.
  destruct (open_error e t) as [m|]; [no_record|].
  destruct (flush_error e t) as [m|]; [no_record|].
  destruct (audio_transcriptions_create e data) as [text|m]; [|no_record].
  destruct (save_text _ f e _) as [w3 [path|[m|]]] eqn:S.
  - intros _ Hr. cbn [fst]. apply cleaned_gone, Hr.
  - apply save_text_frame in S as (Hh & _).
    cbn [fst voice_failed log history]. rewrite Hh. no_record.
  - apply save_text_frame in S as (_ & _ & _ & Hn). contradiction.
Qed.

(** Every way a Voice run can fail after the temporary copy is written
    leaves that copy on disk: the transcription fails, or the save does. *)
Lemma voice_failure_keeps_temp name data f e w msg :
  let t := temp_path_of (PROJECTS_DIR e) name in
  open_error e t = None -> flush_error e t = None ->
  audio_transcriptions_create e data = Fails msg
  \/ open_error e (target_path e w (Voice (Some (name, data)) f)) = Some msg ->
  files (fst (run (Voice (Some (name, data)) f) e w)) !! t = Some data.
Proof.
  intros t Ho Hf H. rewrite voice_run. cbn zeta. fold t. rewrite Ho, Hf.
  destruct (audio_transcriptions_create e data) as [text|m].
  - destruct H as [H|H]; [discriminate|].
    rewrite save_text_run. cbn zeta.
    unfold target_path in H. cbn [filename_of] in H.
    change (clock_reads (voiced e name data text w)) with (clock_reads w).
    rewrite H. cbn. apply lookup_insert_eq.
  - cbn. apply lookup_insert_eq.
Qed.

(** C8, at a failing input: the transcription end refuses the upload;
    the run reports the failure and ends with the temporary copy still on
    disk, its removal never attempted. *)
Theorem voice_temp_copy_left_behind :
  let w' := fst (run (Voice (Some Sample.note) (lit "transcript.txt"))
                   Sample.deaf Sample.fresh) in
  files w' !! lit "/srv/app/projects/temp_note.wav" = Some [82; 73; 70; 70]
  /\ last (trace w')
     = Some (Shown (st_error (CROSS_MARK
                              ++ lit " Voice processing failed: Invalid file format."))).
Proof. vm_compute. split; reflexivity. Qed.

End VoiceFacts.

(** ** Worked runs *)

Section WorkedRuns.

Import Sample.

Example sanitize_spaces_and_marks :
  sanitize_filename (lit "  my app!.py ") = lit "my_app_.py".
Proof. reflexivity. Qed.

Example sanitize_other_extension :
  sanitize_filename (lit "notes.txt") = lit "notes.txt.py".
Proof. reflexivity. Qed.

Example sanitize_blank : sanitize_filename (lit "   ") = lit "app.py".
Proof. reflexivity. Qed.

Example marker_is_utf8 :
  Utf8.encode WARNING_SIGN = Some [0xE2; 0x9A; 0xA0; 0xEF; 0xB8; 0x8F].
Proof. reflexivity. Qed.

(** Three saves: at 09:05:59, again within that second, and at 09:06:00. *)
Lemma save_text_paths_witness :
  let first := save_text (lit "one") (lit "my app") healthy fresh in
  let again := save_text (lit "two") (lit " my app ") healthy later in
  let after := save_text (lit "three") (lit "my app") healthy much_later in
  let p1 := lit "/srv/app/projects/20240307_090559_my_app.py" in
  let p3 := lit "/srv/app/projects/20240307_090600_my_app.py" in
  first = (fst first, Val p1) /\ again = (fst again, Val p1)
  /\ after = (fst after, Val p3)
  /\ p1 <> p3
  /\ read_text (fst again) p1 = Some (lit "two").
Proof.
  intros first again after p1 p3.
  assert (S1 : first = (fst first, Val p1)) by (vm_compute; reflexivity).
  assert (S2 : again = (fst again, Val p1)) by (vm_compute; reflexivity).
  assert (S3 : after = (fst after, Val p3)) by (vm_compute; reflexivity).
  destruct (save_text_paths (lit "one") (lit "three") (lit "my app")
              (lit "my app") healthy fresh much_later (fst first) (fst after)
              p1 p3 eq_refl eq_refl S1 S3) as [Distinct _].
  destruct (save_text_paths (lit "one") (lit "two") (lit "my app")
              (lit " my app ") healthy fresh later (fst first) (fst again)
              p1 p1 eq_refl eq_refl S1 S2) as [_ Collide].
  split; [exact S1|]. split; [exact S2|]. split; [exact S3|]. split.
  - apply Distinct; [reflexivity|]. vm_compute. discriminate.
  - apply Collide; reflexivity.
Defined.

(** A Build submission whose prompt is three spaces. *)
Lemma blank_input_rejected_witness :
  let s := Build (lit "   ") (lit "app.py") in
  let warning := lit "Please describe what to build." in
  missing_input s = Some warning
  /\ snd (run s healthy fresh) = Exc StopException
  /\ trace (fst (run s healthy fresh)) = [Shown (st_warning warning)]
  /\ files (fst (run s healthy fresh)) = ∅
  /\ history (fst (run s healthy fresh)) = [].
Proof.
  intros s warning. split; [reflexivity|].
  exact (blank_input_rejected s healthy fresh warning eq_refl).
Defined.



(** The voice note that reads "hello", answered "hi there". *)
Lemma voice_artifact_content_witness :
  let s := Voice (Some note) (lit "transcript.txt") in
  let p := lit "/srv/app/projects/20240307_090559_transcript.txt.py" in
  let rec := {| History.mode := lit "Voice"; History.prompt := lit "hello";
                History.filename := lit "transcript.txt"; History.path := p;
                History.time := lit "2024-03-07 09:05:59" |} in
  history (fst (run s healthy fresh)) = [rec]
  /\ read_text (fst (run s healthy fresh)) p
     = Some (lit "Transcript:" ++ nl ++ lit "hello" ++ nl ++ nl
             ++ lit "Response:" ++ nl ++ lit "hi there").
Proof.
  intros s p rec.
  assert (H : history (fst (run s healthy fresh)) = history fresh ++ [rec])
    by (vm_compute; reflexivity).
  split; [exact H|].
  destruct (voice_artifact_content (lit "note.wav") [82; 73; 70; 70]
              (lit "transcript.txt") healthy fresh rec H)
    as (text & Ht & _ & _ & Hread).
  injection Ht as <-. exact Hread.
Defined.

(** A Voice run whose artifact the disk refuses: the error is shown,
    nothing is recorded, and the temporary copy stays. *)
Example voice_save_refused :
  let w' := fst (run (Voice (Some note) (lit "transcript.txt"))
                   artifacts_refused fresh) in
  history w' = []
  /\ files w' !! lit "/srv/app/projects/temp_note.wav" = Some [82; 73; 70; 70]
  /\ last (trace w')
     = Some (Shown (st_error
                      (CROSS_MARK
                       ++ lit " Voice processing failed: [Errno 28] No space left on device"))).
Proof. vm_compute. repeat split. Qed.


End WorkedRuns.

(** ** The closing block of a tab, outcome by outcome *)

Section Outcomes.

Lemma persist_cases saved label mode failed text prompt filename e w :
  persist saved label mode failed text prompt filename e w =
  let p := artifact_path (PROJECTS_DIR e) (now e (clock_reads w)) filename in
  let shown_error msg := Shown (st_error (CROSS_MARK ++ failed ++ msg)) in
  match open_error e p with
  | Some msg => (log (shown_error msg) (tick w), Val tt)
  | None =>
      match Utf8.encode text with
      | None =>
          (log (shown_error UnicodeEncodeError)
             (with_files (<[p := []]> (files w)) (tick w)), Val tt)
      | Some bs =>
          match flush_error e p with
          | Some msg =>
              (log (shown_error msg)
                 (with_files (<[p := []]> (files w)) (tick w)), Val tt)
          | None =>
              (appended
                 {| History.mode := mode; History.prompt := prompt;
                    History.filename := filename; History.path := p;
                    History.time :=
                      Datetime.strftime_iso (now e (S (clock_reads w))) |}
                 (tick
                    (log (Shown (st_download_button label text (os_path.basename p)))
                       (log (Shown (st_success (CHECK_MARK ++ saved ++ p)))
                          (with_files (<[p := bs]> (files w)) (tick w))))),
               Val tt)
          end
      end
  end.
Proof.
  rewrite persist_run, save_text_run. cbn zeta.
  destruct (open_error e _); [reflexivity|].
  destruct (Utf8.encode text); [|reflexivity].
  destruct (flush_error e _); reflexivity.
Qed.

(** A text tab, from the button to its closing block. *)
Lemma text_tab_outline s e w :
  is_voice s = false ->
  run s e w =
  if negb (validated s) then refused (warning_of s) w
  else if match s with Ask _ f => blank f | _ => false end
       then (dispatched e s w, Val tt)
       else persist (saved_literal s) (download_label s) (mode_name s)
              (failed_prefix s) (artifact_text e s) (recorded_prompt e s)
              (filename_of s) e (dispatched e s w).
Proof.
  destruct s as [p f|b c f|c r f|q f|a f]; intros V; try discriminate;
    cbn [validated].
  - rewrite build_run. destruct (blank p); reflexivity.
  - rewrite modify_run. cbn [warning_of].
    destruct (blank b); [reflexivity|]. destruct (blank c); reflexivity.
  - rewrite edit_run. cbn [warning_of].
    destruct (blank c); [reflexivity|]. destruct (blank r); reflexivity.
  - rewrite ask_run. destruct (blank q); [reflexivity|].
    cbn zeta. destruct (blank f); reflexivity.
Qed.

End Outcomes.

(** ** Every run, outcome by outcome *)

Section RunOutcomes.

Lemma voice_cases name data f e w :
  run (Voice (Some (name, data)) f) e w =
  let t := temp_path_of (PROJECTS_DIR e) name in
  let p := artifact_path (PROJECTS_DIR e) (now e (clock_reads w)) f in
  match open_error e t with
  | Some msg => voice_failed msg w
  | None =>
      match flush_error e t with
      | Some msg => voice_failed msg (with_files (<[t := []]> (files w)) w)
      | None =>
          match audio_transcriptions_create e data with
          | Fails msg =>
              voice_failed msg
                (log (TranscriptionRequest (lit "whisper-1") data)
                   (with_files (<[t := data]> (files w)) w))
          | Returns text =>
              let transcript := Py.strip text in
              let reply := completion_text
                (chat_completions_create e (voice_messages transcript) (2 # 10)) in
              let combined := combined_text transcript reply in
              let w2 := voiced e name data text w in
              match open_error e p with
              | Some msg => voice_failed msg (tick w2)
              | None =>
                  match Utf8.encode combined with
                  | None =>
                      voice_failed UnicodeEncodeError
                        (with_files (<[p := []]> (files w2)) (tick w2))
                  | Some bs =>
                      match flush_error e p with
                      | Some msg =>
                          voice_failed msg
                            (with_files (<[p := []]> (files w2)) (tick w2))
                      | None =>
                          (cleaned e t
                             (appended
                                {| History.mode := lit "Voice";
                                   History.prompt := transcript;
                                   History.filename := f; History.path := p;
                                   History.time :=
                                     Datetime.strftime_iso
                                       (now e (S (clock_reads w))) |}
                                (tick
                                   (log (Shown (st_download_button
                                                  (lit "Download transcript & response")
                                                  combined (os_path.basename p)))
                                      (log (Shown (st_success
                                                     (CHECK_MARK
                                                      ++ lit " Transcript & response saved to "
                                                      ++ p)))
                                         (with_files (<[p := bs]> (files w2))
                                            (tick w2)))))),
                           Val tt)
                      end
                  end
              end
          end
      end
  end.
Proof.
  rewrite voice_run. cbn zeta.
  destruct (open_error e (temp_path_of _ _)); [reflexivity|].
  destruct (flush_error e (temp_path_of _ _)); [reflexivity|].
  destruct (audio_transcriptions_create e data) as [text|]; [|reflexivity].
  rewrite save_text_run. cbn zeta.
  change (clock_reads (voiced e name data text w)) with (clock_reads w).
  destruct (open_error e (artifact_path _ _ _)); [reflexivity|].
  destruct (Utf8.encode _); [|reflexivity].
  destruct (flush_error e (artifact_path _ _ _)); reflexivity.
Qed.

Lemma artifact_text_voice name data f e text :
  audio_transcriptions_create e data = Returns text ->
  artifact_text e (Voice (Some (name, data)) f) =
  combined_text (Py.strip text)
    (completion_text
       (chat_completions_create e (voice_messages (Py.strip text)) (2 # 10))).
Proof. intros H. unfold artifact_text. cbn [completion_request]. rewrite H. reflexivity. Qed.

Lemma cleaned_trace e t w : trace (cleaned e t w) = trace w.
Proof.
  unfold cleaned. destruct (remove_error e t); [reflexivity|].
  destruct (files w !! t); reflexivity.
Qed.

End RunOutcomes.

Section RunLaws.

Lemma dispatched_frame e s w :
  files (dispatched e s w) = files w
  /\ history (dispatched e s w) = history w
  /\ clock_reads (dispatched e s w) = clock_reads w.
Proof.
  unfold dispatched. destruct (completion_request e s) as [[m t]|];
    repeat split.
Qed.

Lemma reaches_persisting_text s e :
  is_voice s = false ->
  reaches_persisting e s =
  validated s && negb (match s with Ask _ f => blank f | _ => false end).
Proof.
  destruct s; intros V; try discriminate; cbn [reaches_persisting validated];
    try (rewrite andb_true_r; reflexivity); reflexivity.
Qed.


End RunLaws.

Section RunLaws2.

(** X3. Whenever a run records an entry, that is, its save went through,
    the file the entry points to holds the text of the run: the answer of
    the completion client, or for Voice the transcript and the answer. *)
Theorem run_artifact_readable (s : submission) e w :
  reaches_persisting e s && save_ok e w s = true ->
  read_text (fst (run s e w)) (target_path e w s) = Some (artifact_text e s).
Proof.
  rewrite andb_true_iff. unfold save_ok. rewrite !andb_true_iff.
  intros (R & (Ho & He) & Hf).
  destruct (open_error e (target_path e w s)) eqn:Eo; [discriminate|].
  destruct (flush_error e (target_path e w s)) eqn:Ef; [discriminate|].
  destruct (Utf8.encode (artifact_text e s)) as [bs|] eqn:Ee; [|discriminate].
  clear Ho He Hf. unfold target_path in *.
  destruct (is_voice s) eqn:V.
  - destruct s as [| | | |[[name data]|] f]; try discriminate.
    rewrite voice_cases. cbn zeta. cbn [reaches_persisting filename_of] in *.
    destruct (open_error e (temp_path_of _ _)); [discriminate|].
    destruct (flush_error e (temp_path_of _ _)); [discriminate|].
    destruct (audio_transcriptions_create e data) as [text|] eqn:T;
      [|discriminate].
    rewrite (artifact_text_voice name data f e text T) in *.
    rewrite Eo, Ee, Ef. cbn [fst]. unfold read_text.
    rewrite cleaned_other by apply temp_path_not_artifact.
    cbn [files appended tick log with_files]. rewrite lookup_insert_eq.
    apply decode_encode, Ee.
  - rewrite (text_tab_outline s e w V).
    rewrite (reaches_persisting_text s e V), andb_true_iff, negb_true_iff in R.
    destruct R as [-> ->]. cbn [negb].
    rewrite persist_cases. cbn zeta.
    destruct (dispatched_frame e s w) as (_ & _ & Hc). rewrite !Hc.
    rewrite Eo, Ee, Ef. cbn [fst]. unfold read_text.
    cbn [files appended tick log with_files]. rewrite lookup_insert_eq.
    apply decode_encode, Ee.
Qed.

(** X4. A run leaves every file alone but its own artifact and, for Voice,
    the temporary copy of the upload: nothing else is created, changed or
    removed. *)
Theorem run_files_frame (s : submission) e w (p : list N) :
  p ∉ touched e w s ->
  files (fst (run s e w)) !! p = files w !! p.
Proof.
  unfold touched, target_path. intros H.
  apply not_elem_of_cons in H as [Hp H].
  destruct (is_voice s) eqn:V.
  - destruct s as [| | | |[[name data]|] f]; try discriminate; [|reflexivity].
    apply not_elem_of_cons in H as [Ht _]. cbn [filename_of] in Hp.
    rewrite voice_cases. cbn zeta.
    repeat match goal with
           | |- context [match ?x with _ => _ end] => destruct x
           end;
      cbn [fst voice_failed voiced answered files appended tick log with_files];
      rewrite ?cleaned_other by congruence;
      cbn [fst voice_failed voiced answered files appended tick log with_files];
      rewrite ?lookup_insert_ne by congruence; reflexivity.
  - rewrite (text_tab_outline s e w V).
    destruct (dispatched_frame e s w) as (Hf & _ & Hc).
    destruct (validated s); [|reflexivity]. cbn [negb].
    destruct (match s with Ask _ f => blank f | _ => false end);
      [cbn [fst]; rewrite Hf; reflexivity|].
    rewrite persist_cases. cbn zeta. rewrite !Hc.
    repeat match goal with
           | |- context [match ?x with _ => _ end] => destruct x
           end;
      cbn [fst files appended tick log with_files];
      rewrite ?lookup_insert_ne by congruence; rewrite Hf; reflexivity.
Qed.

End RunLaws2.

Section Requests.






End Requests.

(** ** Where artifacts go *)

Section Confinement.

Lemma digit_sep n : (Datetime.digit n =? os_path.sep) = false.
Proof.
  apply N.eqb_neq. pose proof (digit_range n). unfold os_path.sep. lia.
Qed.

Lemma in_class_sep c : in_class c = true -> (c =? os_path.sep) = false.
Proof.
  unfold in_class, os_path.sep. intros H. apply N.eqb_neq. revert H.
  rewrite !orb_true_iff, !andb_true_iff, !N.leb_le, !N.eqb_eq. lia.
Qed.

Lemma separator_free_app a b :
  separator_free (a ++ b) = separator_free a && separator_free b.
Proof. apply forallb_app. Qed.

Lemma separator_free_stamp d : separator_free (Datetime.strftime_stamp d) = true.
Proof.
  unfold Datetime.strftime_stamp, Datetime.pad4, Datetime.pad2.
  change (lit "_") with [95].
  cbn [app separator_free forallb]. rewrite !digit_sep. reflexivity.
Qed.

Lemma separator_free_sanitized f : separator_free (sanitize_filename f) = true.
Proof.
  pose proof (sanitize_filename_in_class f) as H.
  unfold separator_free. rewrite forallb_forall in H |- *.
  intros c Hc. rewrite (in_class_sep c (H c Hc)). reflexivity.
Qed.

Lemma until_sep_free x : separator_free x = true -> os_path.until_sep x = x.
Proof.
  induction x as [|c x IH]; [reflexivity|]. cbn [separator_free forallb].
  rewrite andb_true_iff, negb_true_iff. intros [Hc Hx].
  cbn [os_path.until_sep]. rewrite Hc. f_equal. apply IH, Hx.
Qed.

Lemma until_sep_app x y :
  separator_free x = true -> os_path.until_sep (x ++ os_path.sep :: y) = x.
Proof.
  induction x as [|c x IH].
  - intros _. reflexivity.
  - cbn [separator_free forallb]. rewrite andb_true_iff, negb_true_iff.
    intros [Hc Hx]. cbn [app os_path.until_sep]. rewrite Hc. f_equal.
    apply IH, Hx.
Qed.

(** [os.path.join(a, "")] is empty or ends with the separator. *)
Lemma join_root a :
  os_path.join a [] = [] \/ exists a', os_path.join a [] = a' ++ [os_path.sep].
Proof.
  unfold os_path.join. cbn [Py.startswith].
  destruct a as [|c a]; [left; reflexivity|]. cbn [Py.truthy negb orb].
  destruct (Py.endswith (c :: a) [os_path.sep]) eqn:E.
  - apply endswith_suffix in E as [t ->]. right. exists t.
    rewrite app_nil_r. reflexivity.
  - right. exists (c :: a). reflexivity.
Qed.

Lemma basename_under a x :
  separator_free x = true ->
  os_path.basename (os_path.join a [] ++ x) = x.
Proof.
  intros Hx. unfold os_path.basename.
  assert (Hr : separator_free (rev x) = true)
    by (unfold separator_free; rewrite forallb_rev; exact Hx).
  destruct (join_root a) as [->|[a' ->]].
  - cbn [app]. rewrite (until_sep_free _ Hr). apply rev_involutive.
  - rewrite !rev_app_distr. cbn [rev app].
    rewrite (until_sep_app _ _ Hr). apply rev_involutive.
Qed.

(** X6. Whatever name is requested, the artifact lands directly in the
    content root: its path is the root followed by one component that holds
    no separator, namely the 15-character stamp, an underscore and the
    sanitized name; that component is what the download button offers, and
    the sanitized name can be read back off it. *)
Theorem artifact_path_confined (dir : list N) (d : datetime) (f : list N) :
  let name := Datetime.strftime_stamp d ++ lit "_" ++ sanitize_filename f in
  artifact_path dir d f = os_path.join dir [] ++ name
  /\ separator_free name = true
  /\ os_path.basename (artifact_path dir d f) = name
  /\ drop 16 name = sanitize_filename f.
Proof.
  intros name.
  assert (Hn : separator_free name = true).
  { unfold name. rewrite !separator_free_app, separator_free_stamp,
      separator_free_sanitized. reflexivity. }
  split; [apply artifact_path_unfold|]. split; [exact Hn|].
  split; [|reflexivity].
  rewrite artifact_path_unfold. apply basename_under, Hn.
Qed.

End Confinement.

(** ** More on the artifact store *)

Section StoreFacts.

#[local] Ltac Zify.zify_post_hook ::= Z.to_euclidean_division_equations.

(** X7. A save touches one path only: whether it returns or raises, every
    other file is as before, and so are the history and the trace. *)
Theorem save_text_touches_target_only (text filename : list N) e w (p : list N) :
  p <> artifact_path (PROJECTS_DIR e) (now e (clock_reads w)) filename ->
  files (fst (save_text text filename e w)) !! p = files w !! p
  /\ history (fst (save_text text filename e w)) = history w
  /\ trace (fst (save_text text filename e w)) = trace w.
Proof.
  intros Hp. rewrite save_text_run. cbn zeta.
  destruct (open_error e _); [repeat split|].
  destruct (Utf8.encode text);
    [destruct (flush_error e _)|];
    cbn [fst files history trace with_files tick];
    rewrite lookup_insert_ne by congruence; repeat split.
Qed.

Lemma encode_char_bytes c b :
  Utf8.encode_char c = Some b ->
  forallb (fun x => x <? 256) b = true /\ (1 <= length b <= 4)%nat.
Proof.
  unfold Utf8.encode_char.
  destruct (N.ltb_spec c 0x80); [intros [= <-]|].
  { cbn [forallb length]. rewrite andb_true_r, N.ltb_lt. lia. }
  destruct (N.ltb_spec c 0x800); [intros [= <-]|].
  { cbn [forallb length]. rewrite !andb_true_iff, !N.ltb_lt. lia. }
  destruct (N.ltb_spec c 0x10000).
  { destruct (Utf8.is_surrogate c); [discriminate|]. intros [= <-].
    cbn [forallb length]. rewrite !andb_true_iff, !N.ltb_lt. lia. }
  destruct (N.ltb_spec c 0x110000); [|discriminate]. intros [= <-].
  cbn [forallb length]. rewrite !andb_true_iff, !N.ltb_lt. lia.
Qed.

Lemma encode_bytes s bs :
  Utf8.encode s = Some bs ->
  forallb (fun x => x <? 256) bs = true
  /\ (length s <= length bs <= 4 * length s)%nat.
Proof.
  revert bs. induction s as [|c s IH]; intros bs; cbn [Utf8.encode].
  - intros [= <-]. cbn. split; [reflexivity|lia].
  - destruct (Utf8.encode_char c) as [b|] eqn:Ec; [|discriminate].
    destruct (Utf8.encode s) as [bs'|]; [|discriminate].
    intros [= <-]. destruct (encode_char_bytes c b Ec) as [Hb Hl].
    destruct (IH bs' eq_refl) as [Hbs Hls].
    rewrite forallb_app, Hb, Hbs, length_app. cbn [length]. split; [reflexivity|lia].
Qed.

(** X8. What a save leaves on disk is a sequence of bytes, between one and
    four for each code point of the text. *)
Theorem save_text_bytes (text filename : list N) e w w' path :
  save_text text filename e w = (w', Val path) ->
  exists bs,
    files w' !! path = Some bs
    /\ forallb (fun x => x <? 256) bs = true
    /\ (length text <= length bs <= 4 * length text)%nat.
Proof.
  intros H. apply save_text_returns in H as (_ & bs & He & ->).
  exists bs. cbn [files with_files]. rewrite lookup_insert_eq.
  split; [reflexivity|]. apply encode_bytes, He.
Qed.

Lemma encode_char_none c :
  Utf8.encode_char c = None <->
  Utf8.is_surrogate c || (0x110000 <=? c) = true.
Proof.
  unfold Utf8.encode_char, Utf8.is_surrogate.
  rewrite orb_true_iff, andb_true_iff, !N.leb_le.
  destruct (N.ltb_spec c 0x80); [split; [discriminate|lia]|].
  destruct (N.ltb_spec c 0x800); [split; [discriminate|lia]|].
  destruct (N.ltb_spec c 0x10000).
  - destruct (N.leb_spec 0xD800 c); destruct (N.leb_spec c 0xDFFF);
      cbn [andb]; split; try discriminate; try lia; reflexivity.
  - destruct (N.ltb_spec c 0x110000); split; try discriminate; try lia;
      reflexivity.
Qed.

(** A text has no UTF-8 encoding exactly when it holds a lone surrogate
    (or a value no [str] can hold). *)
Lemma encode_none s :
  Utf8.encode s = None <->
  existsb (fun c => Utf8.is_surrogate c || (0x110000 <=? c)) s = true.
Proof.
  induction s as [|c s IH]; cbn [Utf8.encode existsb].
  - split; discriminate.
  - rewrite orb_true_iff, <- IH, <- encode_char_none.
    destruct (Utf8.encode_char c); destruct (Utf8.encode s);
      split; try discriminate; try tauto; intros [H|H]; discriminate.
Qed.

(** X9. The sanitizer leaves a name alone exactly when the name already
    holds only characters of the class and ends with ".py". *)
Theorem sanitize_filename_fixed_iff (r : list N) :
  sanitize_filename r = r <->
  forallb in_class r = true /\ Py.endswith r (lit ".py") = true.
Proof.
  split.
  - intros <-. split.
    + apply sanitize_filename_in_class.
    + apply sanitize_filename_endswith.
  - intros [Hc He]. apply sanitize_filename_fixed; assumption.
Qed.

(** X10. [ask_model] always returns: it sends one request, changes nothing
    else, and hands back the stripped content of the first choice of a
    well-formed response (later choices are ignored) or else a text that
    opens with the warning marker. *)
Theorem ask_model_total (messages : list message) (temperature : Q) e w :
  exists text,
    ask_model messages temperature e w =
    (log (CompletionRequest (lit "gpt-3.5-turbo") messages temperature) w, Val text)
    /\ match chat_completions_create e messages temperature with
       | Returns (Some c :: _) => text = Py.strip c
       | _ => Py.startswith text WARNING_SIGN = true
       end.
Proof.
  eexists. split; [apply ask_model_run|].
  destruct (chat_completions_create e messages temperature) as [[|[c|] l]|msg];
    reflexivity.
Qed.

End StoreFacts.

(** ** What the user sees *)

Section Feedback.


End Feedback.

(** ** Sidebar and templates *)

Section Sidebar.

(** X13. The sidebar lists the newest record first: once a record is
    appended, its line heads the list and the lines of the older records
    follow in the order they had. *)
Theorem sidebar_newest_first (h : list History.record) (r : History.record) :
  sidebar_history (h ++ [r]) =
  sb_markdown (history_line r)
  :: List.map (fun item => sb_markdown (history_line item)) (rev h).
Proof.
  unfold sidebar_history.
  destruct (h ++ [r]) as [|x l] eqn:E.
  - destruct h; discriminate.
  - rewrite <- E, rev_app_distr. reflexivity.
Qed.

(** X14. The prompt shown in the sidebar is the prompt itself up to sixty
    code points, and its first sixty followed by three dots beyond: never
    more than sixty-three, and always the same first sixty. *)
Theorem preview_bounds (prompt : list N) :
  preview prompt
  = (if (60 <? length prompt)%nat then take 60 prompt ++ lit "..." else prompt)
  /\ (length (preview prompt) <= 63)%nat
  /\ take 60 (preview prompt) = take 60 prompt.
Proof.
  unfold preview.
  destruct (Nat.ltb_spec 60 (length prompt)) as [H|H].
  - split; [reflexivity|]. split.
    + rewrite length_app, length_take.
      change (length (lit "...")) with 3%nat. lia.
    + rewrite take_app_le by (rewrite length_take; lia).
      rewrite take_take. f_equal.
  - rewrite app_nil_r, !take_ge by lia.
    split; [reflexivity|]. split; [lia|reflexivity].
Qed.

(** X15. The line the sidebar shows for the record of a run names the
    artifact by its stamped sanitized name, not by the requested name nor
    by its full path, and dates it by the second reading of the clock. *)
Theorem history_line_of_run (s : submission) e w :
  history_line (record_of e w s) =
  lit "- **Mode:** " ++ mode_name s ++ lit "  " ++ nl
  ++ lit "  **Prompt:** " ++ preview (recorded_prompt e s) ++ lit "  " ++ nl
  ++ lit "  **File:** `"
  ++ (Datetime.strftime_stamp (now e (clock_reads w)) ++ lit "_"
      ++ sanitize_filename (filename_of s))
  ++ lit "` " ++ EM_DASH ++ lit " "
  ++ Datetime.strftime_iso (now e (S (clock_reads w))).
Proof.
  unfold history_line, record_of, target_path.
  cbn [History.mode History.prompt History.path History.time].
  rewrite artifact_path_unfold.
  assert (T : Py.truthy
                (os_path.join (PROJECTS_DIR e) []
                 ++ Datetime.strftime_stamp (now e (clock_reads w)) ++ lit "_"
                 ++ sanitize_filename (filename_of s)) = true)
    by (destruct (os_path.join (PROJECTS_DIR e) []); reflexivity).
  rewrite T, basename_under; [reflexivity|].
  rewrite !separator_free_app, separator_free_stamp, separator_free_sanitized.
  reflexivity.
Qed.

(** X16. Every choice of the template box but the first prefills the Build
    prompt with a text that passes validation; the first, no template,
    prefills nothing. *)
Theorem template_prefill (t : list N) :
  In t template_options ->
  blank (default_prompt t) = bool_decide (t = NO_TEMPLATE)
  /\ (t <> NO_TEMPLATE -> In (t, default_prompt t) mapping).
Proof.
  unfold template_options. cbn [In].
  intros [<-|[<-|[<-|[<-|[<-|[<-|[]]]]]]]; split;
    try (vm_compute; reflexivity); intros H;
    try (exfalso; apply H; reflexivity);
    cbn [In mapping]; vm_compute; tauto.
Qed.

End Sidebar.

(** ** Sessions *)

Section Sessions.




End Sessions.

(** ** Further worked runs *)

Section FurtherRuns.

Import Sample Cases.

(** A Build run with everything working. *)
Lemma run_artifact_readable_witness :
  let s := Build (lit "Build a CLI") (lit "app.py") in
  reaches_persisting healthy s && save_ok healthy fresh s = true
  /\ read_text (fst (run s healthy fresh))
       (lit "/srv/app/projects/20240307_090559_app.py")
     = Some (lit "hi there").
Proof.
  intros s.
  assert (H : reaches_persisting healthy s && save_ok healthy fresh s = true)
    by (vm_compute; reflexivity).
  split; [exact H|]. exact (run_artifact_readable s healthy fresh H).
Defined.

(** A voice note handled in a session that already holds an artifact. *)
Lemma run_files_frame_witness :
  let s := Voice (Some note) (lit "transcript.txt") in
  let p := lit "/srv/app/projects/20240306_180000_app.py" in
  (p ∉ touched healthy used s)
  /\ files (fst (run s healthy used)) !! p = Some (lit "print(0)").
Proof.
  intros s p.
  assert (H : p ∉ touched healthy used s).
  { unfold touched, s, note. rewrite !not_elem_of_cons.
    split; [vm_compute; discriminate|].
    split; [vm_compute; discriminate|apply not_elem_of_nil]. }
  split; [exact H|].
  rewrite (run_files_frame s healthy used p H). vm_compute. reflexivity.
Defined.

Lemma save_text_touches_target_only_witness :
  let p := lit "/srv/app/projects/20240306_180000_app.py" in
  let saved := save_text (lit "print(1)") (lit "app.py") healthy used in
  p <> artifact_path (PROJECTS_DIR healthy) (now healthy (clock_reads used))
         (lit "app.py")
  /\ files (fst saved) !! p = Some (lit "print(0)")
  /\ history (fst saved) = [earlier_record].
Proof.
  intros p saved.
  assert (H : p <> artifact_path (PROJECTS_DIR healthy)
                     (now healthy (clock_reads used)) (lit "app.py"))
    by (vm_compute; discriminate).
  split; [exact H|].
  destruct (save_text_touches_target_only (lit "print(1)") (lit "app.py")
              healthy used p H) as (Hf & Hh & _).
  unfold saved. split; [rewrite Hf; vm_compute; reflexivity|exact Hh].
Defined.

Lemma save_text_bytes_witness :
  let text := WARNING_SIGN ++ lit " ok" in
  let saved := save_text text (lit "app.py") healthy fresh in
  let path := lit "/srv/app/projects/20240307_090559_app.py" in
  saved = (fst saved, Val path)
  /\ exists bs,
       files (fst saved) !! path = Some bs
       /\ forallb (fun x => x <? 256) bs = true
       /\ (length text <= length bs <= 4 * length text)%nat.
Proof.
  intros text saved path.
  assert (H : saved = (fst saved, Val path)) by (vm_compute; reflexivity).
  split; [exact H|].
  exact (save_text_bytes text (lit "app.py") healthy fresh (fst saved) path H).
Defined.

Lemma voice_success_removes_temp_witness :
  let s := Voice (Some note) (lit "transcript.txt") in
  (exists rec, history (fst (run s healthy fresh)) = history fresh ++ [rec])
  /\ files (fst (run s healthy fresh))
       !! lit "/srv/app/projects/temp_note.wav" = None.
Proof.
  intros s.
  assert (H : history (fst (run s healthy fresh))
              = history fresh ++ [record_of healthy fresh s])
    by (vm_compute; reflexivity).
  split; [eexists; exact H|].
  exact (voice_success_removes_temp (lit "note.wav") [82; 73; 70; 70]
           (lit "transcript.txt") healthy fresh (record_of healthy fresh s)
           H eq_refl).
Defined.

Lemma template_prefill_witness :
  let t := lit "Flask: Minimal API with /hello" in
  In t template_options
  /\ blank (default_prompt t) = false
  /\ In (t, default_prompt t) mapping.
Proof.
  intros t.
  assert (H : In t template_options) by (cbn; tauto).
  split; [exact H|].
  destruct (template_prefill t H) as [Hb Hm].
  split; [rewrite Hb; vm_compute; reflexivity|].
  apply Hm. vm_compute. discriminate.
Defined.

End FurtherRuns.

(** ** The strict front end *)

Section StrictFacts.

Lemma displayable_trace_app a b :
  displayable_trace (a ++ b) = displayable_trace a && displayable_trace b.
Proof. apply forallb_app. Qed.

Lemma new_events_app w w' evs :
  trace w' = trace w ++ evs -> new_events w w' = evs.
Proof. unfold new_events. intros ->. apply drop_app_length. Qed.

Lemma new_events_log w ev : new_events w (log ev w) = [ev].
Proof. apply new_events_app. reflexivity. Qed.

(** What the closing block adds to the trace. *)
Lemma persist_trace saved label mode failed text prompt filename e w :
  exists evs,
    trace (fst (persist saved label mode failed text prompt filename e w))
    = trace w ++ evs.
Proof.
  rewrite persist_cases. cbn zeta.
  destruct (open_error e _); [eexists [_]; reflexivity|].
  destruct (Utf8.encode text); [|eexists [_]; reflexivity].
  destruct (flush_error e _); [eexists [_]; reflexivity|].
  eexists [_; _]. cbn [fst trace appended tick log with_files].
  rewrite <- app_assoc. reflexivity.
Qed.

Local Ltac use_displayable H :=
  cbn [fst trace appended tick log with_files] in H;
  rewrite <- ?app_assoc in H; rewrite drop_app_length in H;
  cbn [app displayable_trace forallb] in H;
  rewrite ?andb_true_iff in H;
  unfold Strict.st;
  repeat match goal with
         | |- context [displayable ?c] =>
             let E := fresh "E" in
             destruct (displayable c) eqn:E;
             [|exfalso; clear - H E; intuition congruence]
         end.

(** While every text shown has an encoding, the strict closing block is
    the closing block. *)
Lemma strict_persist saved label mode failed text prompt filename e w :
  displayable_trace
    (new_events w (fst (persist saved label mode failed text prompt filename e w)))
  = true ->
  Strict.persist saved label mode failed text prompt filename e w
  = persist saved label mode failed text prompt filename e w.
Proof.
  rewrite persist_cases. unfold new_events.
  unfold Strict.persist, try_except, bind, record_history, datetime_now,
    history_append.
  rewrite save_text_run. cbn zeta.
  destruct (open_error e _); [intros H; use_displayable H; reflexivity|].
  destruct (Utf8.encode text); [|intros H; use_displayable H; reflexivity].
  destruct (flush_error e _); intros H; use_displayable H; reflexivity.
Qed.

End StrictFacts.

Section StrictRuns.

Lemma strict_refused warning e w :
  displayable_trace (new_events w (fst (refused warning w))) = true ->
  bind (Strict.st (st_warning warning)) (fun _ : unit => @st_stop unit) e w
  = refused warning w.
Proof.
  unfold refused. cbn [fst]. rewrite new_events_log.
  cbn [displayable_trace forallb]. rewrite andb_true_r. intros H.
  unfold bind, Strict.st. rewrite H. reflexivity.
Qed.

(** The head of a text tab: the answer is asked for, titled and shown,
    then the closing block runs. *)
Lemma strict_answered messages temperature title body saved label mode failed
    prompt filename e w :
  let text := completion_text (chat_completions_create e messages temperature) in
  let w1 := answered (CompletionRequest (lit "gpt-3.5-turbo") messages temperature)
              title (body text) w in
  displayable_trace
    (new_events w
       (fst (persist saved label mode failed text prompt filename e w1))) = true ->
  bind (ask_model messages temperature)
    (fun answer =>
       bind (Strict.st (st_subheader title))
         (fun _ =>
            bind (Strict.st (body answer))
              (fun _ =>
                 Strict.persist saved label mode failed answer prompt filename)))
    e w
  = persist saved label mode failed text prompt filename e w1.
Proof.
  intros text w1 H.
  destruct (persist_trace saved label mode failed text prompt filename e w1)
    as [evs Hevs].
  assert (Hnew : new_events w1
                   (fst (persist saved label mode failed text prompt filename e w1))
                 = evs) by (apply new_events_app, Hevs).
  rewrite (new_events_app w _
             ([CompletionRequest (lit "gpt-3.5-turbo") messages temperature;
               Shown (st_subheader title); Shown (body text)] ++ evs)) in H
    by (rewrite Hevs; unfold w1; rewrite answered_trace, <- app_assoc; reflexivity).
  rewrite displayable_trace_app in H. cbn [displayable_trace forallb] in H.
  rewrite !andb_true_iff in H. destruct H as [(_ & Ht & Hb & _) He].
  unfold bind, Strict.st. rewrite ask_model_run. fold text.
  rewrite Ht, Hb. apply strict_persist. rewrite Hnew. exact He.
Qed.

Lemma strict_ask_answered messages temperature title body e w :
  let text := completion_text (chat_completions_create e messages temperature) in
  let w1 := answered (CompletionRequest (lit "gpt-3.5-turbo") messages temperature)
              title (body text) w in
  displayable_trace (new_events w w1) = true ->
  bind (ask_model messages temperature)
    (fun answer =>
       bind (Strict.st (st_subheader title))
         (fun _ => bind (Strict.st (body answer)) (fun _ => ret tt)))
    e w
  = (w1, Val tt).
Proof.
  intros text w1 H.
  rewrite (new_events_app w _
             [CompletionRequest (lit "gpt-3.5-turbo") messages temperature;
              Shown (st_subheader title); Shown (body text)]) in H
    by (unfold w1; apply answered_trace).
  cbn [displayable_trace forallb] in H.
  rewrite !andb_true_iff in H. destruct H as (_ & Ht & Hb & _).
  unfold bind, Strict.st. rewrite ask_model_run. fold text.
  rewrite Ht, Hb. reflexivity.
Qed.

Lemma strict_text_tab s e w :
  is_voice s = false ->
  run_displayable e w s = true -> Strict.run s e w = run s e w.
Proof.
  unfold run_displayable.
  destruct s as [p f|b c f|c r f|q f|a f]; intros V; try discriminate.
  - rewrite build_run. unfold Strict.run, Strict.tab_build.
    change (negb (Py.truthy (Py.strip p))) with (blank p).
    destruct (blank p); intros H.
    + apply strict_refused, H.
    + apply (strict_answered (build_messages p) (2 # 10)
               (MEMO ++ lit " Generated code")
               (fun t => st_code t (lit "python"))), H.
  - rewrite modify_run. unfold Strict.run, Strict.tab_modify.
    change (negb (Py.truthy (Py.strip b))) with (blank b).
    change (negb (Py.truthy (Py.strip c))) with (blank c).
    destruct (blank b); [intros H; apply strict_refused, H|].
    destruct (blank c); intros H.
    + apply strict_refused, H.
    + apply (strict_answered (modify_messages b c) (2 # 10)
               (MEMO ++ lit " Updated code")
               (fun t => st_code t (lit "python"))), H.
  - rewrite edit_run. unfold Strict.run, Strict.tab_edit.
    change (negb (Py.truthy (Py.strip c))) with (blank c).
    change (negb (Py.truthy (Py.strip r))) with (blank r).
    destruct (blank c); [intros H; apply strict_refused, H|].
    destruct (blank r); intros H.
    + apply strict_refused, H.
    + apply (strict_answered (edit_messages c r) (2 # 10)
               (MEMO ++ lit " Edited content")
               (fun t => st_code t (lit "text"))), H.
  - rewrite ask_run. unfold Strict.run, Strict.tab_ask.
    change (negb (Py.truthy (Py.strip q))) with (blank q).
    destruct (blank q); [intros H; apply strict_refused, H|].
    cbn zeta. unfold blank at 1 2.
    destruct (Py.truthy (Py.strip f)); cbn [negb]; intros H.
    + apply (strict_answered (ask_messages q) (0 # 1) (BRAIN ++ lit " Answer")
               st_write), H.
    + apply (strict_ask_answered (ask_messages q) (0 # 1)
               (BRAIN ++ lit " Answer") st_write), H.
Qed.

Local Ltac strict_steps :=
  repeat first
    [ rewrite ask_model_run
    | rewrite save_text_run
    | rewrite lookup_insert_eq
    | match goal with
      | H : open_error ?e ?p = _ |- context [open_error ?e ?p] => rewrite H
      | H : flush_error ?e ?p = _ |- context [flush_error ?e ?p] => rewrite H
      | H : audio_transcriptions_create ?e ?d = _
        |- context [audio_transcriptions_create ?e ?d] => rewrite H
      | H : Utf8.encode ?t = _ |- context [Utf8.encode ?t] => rewrite H
      | H : displayable ?c = _ |- context [displayable ?c] => rewrite H
      end
    | progress cbn beta iota zeta
    | progress cbn [files clock_reads with_files log tick appended] ].

Local Ltac voice_leaf :=
  let H := fresh "H" in
  intros H;
  cbn [fst voice_failed] in H; rewrite ?cleaned_trace in H;
  cbn [trace appended tick log with_files voiced answered] in H;
  rewrite <- ?app_assoc in H; rewrite drop_app_length in H;
  cbn [app displayable_trace forallb] in H;
  rewrite ?andb_true_iff in H;
  repeat match goal with H : _ /\ _ |- _ => destruct H end;
  unfold Strict.run, Strict.tab_voice, Strict.st, voice_failed, voiced,
    answered, record_history, os_remove, write_file, read_file,
    create_transcription, try_except, bind, ask, get_files, set_files,
    raise, ret, emit, datetime_now, history_append;
  strict_steps.

Lemma strict_voice a f e w :
  run_displayable e w (Voice a f) = true ->
  Strict.run (Voice a f) e w = run (Voice a f) e w.
Proof.
  unfold run_displayable. destruct a as [[name data]|];
    [|intros H; apply strict_refused, H].
  rewrite voice_cases. unfold new_events. cbn zeta.
  destruct (open_error e (temp_path_of _ _)) eqn:Eot;
    [voice_leaf; reflexivity|].
  destruct (flush_error e (temp_path_of _ _)) eqn:Eft;
    [voice_leaf; reflexivity|].
  destruct (audio_transcriptions_create e data) as [text|] eqn:Et;
    [|voice_leaf; reflexivity].
  destruct (open_error e (artifact_path _ _ _)) eqn:Eop;
    [voice_leaf; reflexivity|].
  destruct (Utf8.encode _) eqn:Een; [|voice_leaf; reflexivity].
  destruct (flush_error e (artifact_path _ _ _)) eqn:Efp;
    [voice_leaf; reflexivity|].
  voice_leaf. unfold cleaned.
  destruct (remove_error e _); [reflexivity|].
  cbn [files appended tick log with_files].
  match goal with |- context [?m !! ?k] => destruct (m !! k) end; reflexivity.
Qed.

(** While every text a run shows has an encoding, the strict run is the
    run: the two differ only from the first text that has none. *)
Lemma strict_run_agrees s e w :
  run_displayable e w s = true -> Strict.run s e w = run s e w.
Proof.
  destruct (is_voice s) eqn:V.
  - destruct s; try discriminate. apply strict_voice.
  - apply strict_text_tab, V.
Qed.

End StrictRuns.

Section TextModeRead.

Lemma universal_newlines_clean n s :
  (length s <= n)%nat ->
  existsb (fun c => c =? 13) (universal_newlines s) = false.
Proof.
  revert s. induction n as [|n IH]; intros s Hl.
  - destruct s; [reflexivity|cbn in Hl; lia].
  - destruct s as [|c s]; [reflexivity|]. cbn [length] in Hl.
    cbn [universal_newlines]. destruct (c =? 13) eqn:C.
    + cbn [existsb]. change (10 =? 13) with false. cbn [orb].
      destruct s as [|d s]; [reflexivity|]. cbn [length] in Hl.
      destruct (d =? 10); apply IH; cbn [length]; lia.
    + cbn [existsb]. rewrite C. cbn [orb]. apply IH. lia.
Qed.

Lemma universal_newlines_id s :
  existsb (fun c => c =? 13) s = false -> universal_newlines s = s.
Proof.
  induction s as [|c s IH]; [reflexivity|]. cbn [existsb universal_newlines].
  rewrite orb_false_iff. intros [-> H]. rewrite (IH H). reflexivity.
Qed.

(** Universal newlines leave a text alone exactly when it holds no carriage
    return. *)
Lemma universal_newlines_fixed s :
  universal_newlines s = s <-> existsb (fun c => c =? 13) s = false.
Proof.
  split; [|apply universal_newlines_id].
  intros H. rewrite <- H. apply (universal_newlines_clean (length s)). lia.
Qed.

(** C3, as amended. A save that returns a path has written the UTF-8
    encoding of the content at that path, so that decoding the bytes of the
    file gives exactly the content; a read in text mode gives the content
    with its line ends translated, which is the content exactly when it
    holds no carriage return. *)
Theorem save_text_round_trip (content name : list N) e w w' path :
  save_text content name e w = (w', Val path) ->
  files w' !! path = Utf8.encode content
  /\ read_text w' path = Some content
  /\ read_text_mode w' path = Some (universal_newlines content)
  /\ (read_text_mode w' path = Some content
      <-> existsb (fun c => c =? 13) content = false).
Proof.
  intros H. apply save_text_returns in H as (_ & bs & He & ->).
  assert (R : read_text (with_files (<[path := bs]> (files w)) (tick w)) path
              = Some content).
  { unfold read_text. cbn [files with_files]. rewrite lookup_insert_eq.
    apply decode_encode, He. }
  split.
  { cbn [files with_files]. rewrite lookup_insert_eq. symmetry. exact He. }
  split; [exact R|]. unfold read_text_mode. rewrite R. cbn [fmap option_fmap option_map].
  split; [reflexivity|].
  rewrite <- universal_newlines_fixed. split; [intros [= E]; exact E|intros ->; reflexivity].
Qed.

End TextModeRead.

Section TextModeRuns.

Import Sample.

(** C3, as stated, fails: a text with carriage returns, saved and read back
    in text mode, comes back with its line ends changed. *)
Lemma text_mode_read_changes_line_ends :
  let content := [97; 13; 10; 98; 13; 99; 10] in
  let saved := save_text content (lit "notes") healthy fresh in
  let path := lit "/srv/app/projects/20240307_090559_notes.py" in
  saved = (fst saved, Val path)
  /\ read_text_mode (fst saved) path = Some [97; 10; 98; 10; 99; 10]
  /\ read_text_mode (fst saved) path <> Some content.
Proof.
  intros content saved path.
  split; [vm_compute; reflexivity|].
  split; [vm_compute; reflexivity|]. vm_compute. discriminate.
Qed.

Lemma save_text_round_trip_witness :
  let saved := save_text (lit "print(1)") (lit "my app") healthy fresh in
  let path := lit "/srv/app/projects/20240307_090559_my_app.py" in
  saved = (fst saved, Val path)
  /\ files (fst saved) !! path = Utf8.encode (lit "print(1)")
  /\ read_text (fst saved) path = Some (lit "print(1)")
  /\ read_text_mode (fst saved) path = Some (lit "print(1)").
Proof.
  intros saved path.
  assert (H : saved = (fst saved, Val path)) by (vm_compute; reflexivity).
  split; [exact H|].
  destruct (save_text_round_trip (lit "print(1)") (lit "my app") healthy fresh
              (fst saved) path H) as (Hf & Hr & _ & Ht).
  split; [exact Hf|]. split; [exact Hr|]. apply Ht. reflexivity.
Defined.

End TextModeRuns.

(** ** Completion failures *)

Section CompletionFailures.



End CompletionFailures.

Section CompletionFailureRuns.

Import Sample.


End CompletionFailureRuns.

(** ** Runs under the strict front end *)

Section StrictLaws.

(** X1. As long as every text it shows has an encoding, no run ends in an
    uncaught exception: a validated submission runs to the end of its tab,
    and a refused one stops the script. *)
Theorem strict_run_result (s : submission) e w :
  run_displayable e w s = true ->
  snd (Strict.run s e w) = if validated s then Val tt else Exc StopException.
Proof.
  intros D. rewrite (strict_run_agrees s e w D).
  destruct (is_voice s) eqn:V.
  - destruct s as [| | | |[[name data]|] f]; try discriminate; [|reflexivity].
    rewrite voice_cases. cbn zeta. cbn [validated].
    repeat match goal with
           | |- context [match ?x with _ => _ end] => destruct x
           end; reflexivity.
  - rewrite (text_tab_outline s e w V).
    destruct (validated s); [|reflexivity]. cbn [negb].
    destruct (match s with Ask _ f => blank f | _ => false end); [reflexivity|].
    rewrite persist_cases. cbn zeta.
    repeat match goal with
           | |- context [match ?x with _ => _ end] => destruct x
           end; reflexivity.
Qed.


Lemma surrogate_unencodable t :
  existsb Utf8.is_surrogate t = true -> Utf8.encode t = None.
Proof.
  intros Hs. apply encode_none. apply existsb_exists in Hs as (c & Hc & Hsur).
  apply existsb_exists. exists c. rewrite Hsur. split; [exact Hc|reflexivity].
Qed.

(** What happens in a text tab when the answer cannot be shown. *)
Lemma strict_answer_refused {A} messages temperature title body
    (k : list N -> M A) e w :
  let text := completion_text (chat_completions_create e messages temperature) in
  displayable (st_subheader title) = true ->
  displayable (body text) = false ->
  bind (ask_model messages temperature)
    (fun answer =>
       bind (Strict.st (st_subheader title))
         (fun _ => bind (Strict.st (body answer)) (fun _ => k answer)))
    e w
  = (log (Shown (st_subheader title))
       (log (CompletionRequest (lit "gpt-3.5-turbo") messages temperature) w),
     Exc (Exception UnicodeEncodeError)).
Proof.
  intros text Ht Hb. unfold bind, Strict.st. rewrite ask_model_run.
  fold text. rewrite Ht, Hb. reflexivity.
Qed.

Lemma undisplayable_code t l : Utf8.encode t = None -> displayable (st_code t l) = false.
Proof. intros H. unfold displayable, encodable. cbn [call_texts forallb]. rewrite H. reflexivity. Qed.

Lemma undisplayable_write t : Utf8.encode t = None -> displayable (st_write t) = false.
Proof. intros H. unfold displayable, encodable. cbn [call_texts forallb]. rewrite H. reflexivity. Qed.

(** X12. When the answer of the completion client has no UTF-8 encoding (it
    holds a lone surrogate), a Build, Modify, Edit or Ask run dies showing
    it: the exception is raised before the [try] opens, so nothing catches
    it; the request has been sent and the title shown, but no file is
    written, no error message of the tab appears and nothing is recorded. *)
Theorem strict_unencodable_answer (s : submission) e w :
  is_voice s = false ->
  validated s = true ->
  existsb Utf8.is_surrogate (artifact_text e s) = true ->
  (exists msg, snd (Strict.run s e w) = Exc (Exception msg))
  /\ files (fst (Strict.run s e w)) = files w
  /\ history (fst (Strict.run s e w)) = history w
  /\ exists title,
       trace (fst (Strict.run s e w))
       = trace w ++ request_of e s ++ [Shown (st_subheader title)].
Proof.
  intros V Hv Hs. apply surrogate_unencodable in Hs.
  assert (E : exists title,
             Strict.run s e w
             = (log (Shown (st_subheader title))
                  (fold_right log w (request_of e s)),
                Exc (Exception UnicodeEncodeError))).
  { destruct s as [p f|b c f|c r f|q f|a f]; try discriminate;
      cbn [validated] in Hv; unfold Strict.run, request_of;
      cbn [completion_request fold_right]; eexists.
    - apply negb_true_iff in Hv. unfold Strict.tab_build.
      change (negb (Py.truthy (Py.strip p))) with (blank p). rewrite Hv.
      refine (strict_answer_refused _ _ _ (fun t => st_code t (lit "python"))
                _ e w _ _);
        [vm_compute; reflexivity|apply undisplayable_code, Hs].
    - apply andb_true_iff in Hv as [Hb Hc]. apply negb_true_iff in Hb, Hc.
      unfold Strict.tab_modify.
      change (negb (Py.truthy (Py.strip b))) with (blank b).
      change (negb (Py.truthy (Py.strip c))) with (blank c). rewrite Hb, Hc.
      refine (strict_answer_refused _ _ _ (fun t => st_code t (lit "python"))
                _ e w _ _);
        [vm_compute; reflexivity|apply undisplayable_code, Hs].
    - apply andb_true_iff in Hv as [Hc Hr]. apply negb_true_iff in Hc, Hr.
      unfold Strict.tab_edit.
      change (negb (Py.truthy (Py.strip c))) with (blank c).
      change (negb (Py.truthy (Py.strip r))) with (blank r). rewrite Hc, Hr.
      refine (strict_answer_refused _ _ _ (fun t => st_code t (lit "text"))
                _ e w _ _);
        [vm_compute; reflexivity|apply undisplayable_code, Hs].
    - apply negb_true_iff in Hv. unfold Strict.tab_ask.
      change (negb (Py.truthy (Py.strip q))) with (blank q). rewrite Hv.
      refine (strict_answer_refused _ _ _ st_write _ e w _ _);
        [vm_compute; reflexivity|apply undisplayable_write, Hs]. }
  destruct E as [title ->]. cbn [fst snd files history trace log].
  assert (F : forall evs, files (fold_right log w evs) = files w
                          /\ history (fold_right log w evs) = history w)
    by (induction evs; [split; reflexivity|exact IHevs]).
  assert (T : trace (fold_right log w (request_of e s))
              = trace w ++ request_of e s).
  { unfold request_of. destruct (completion_request e s) as [[m t]|];
      cbn [fold_right trace log]; [reflexivity|rewrite app_nil_r; reflexivity]. }
  split; [eauto|]. split; [apply F|]. split; [apply F|].
  exists title. rewrite T, <- app_assoc. reflexivity.
Qed.

(** X19. Called on a text that has no UTF-8 encoding, [save_text] raises
    after it has opened its target: the file is there, empty, and nothing
    else has changed. *)
Theorem save_text_unencodable (text filename : list N) e w :
  let p := artifact_path (PROJECTS_DIR e) (now e (clock_reads w)) filename in
  existsb Utf8.is_surrogate text = true ->
  open_error e p = None ->
  (exists msg, snd (save_text text filename e w) = Exc (Exception msg))
  /\ files (fst (save_text text filename e w)) = <[p := []]> (files w)
  /\ history (fst (save_text text filename e w)) = history w
  /\ trace (fst (save_text text filename e w)) = trace w.
Proof.
  intros p Hs Ho. apply surrogate_unencodable in Hs.
  rewrite save_text_run. fold p. cbn zeta. rewrite Ho, Hs.
  cbn [fst snd files history trace with_files tick]. repeat split; eauto.
Qed.

End StrictLaws.

Section StrictRunsWorked.

Import Sample Cases.

Lemma strict_run_result_witness :
  let s := Build (lit "Build a CLI") (lit "app.py") in
  run_displayable offline_readonly fresh s = true
  /\ snd (Strict.run s offline_readonly fresh) = Val tt.
Proof.
  intros s.
  assert (D : run_displayable offline_readonly fresh s = true)
    by (vm_compute; reflexivity).
  split; [exact D|]. exact (strict_run_result s offline_readonly fresh D).
Defined.


(** The model answers "h", a lone surrogate, "i". *)
Lemma strict_unencodable_answer_witness :
  let s := Build (lit "Build a CLI") (lit "app.py") in
  existsb Utf8.is_surrogate (artifact_text garbled s) = true
  /\ (exists msg, snd (Strict.run s garbled fresh) = Exc (Exception msg))
  /\ files (fst (Strict.run s garbled fresh)) = ∅
  /\ history (fst (Strict.run s garbled fresh)) = [].
Proof.
  intros s.
  assert (H : existsb Utf8.is_surrogate (artifact_text garbled s) = true)
    by (vm_compute; reflexivity).
  split; [exact H|].
  destruct (strict_unencodable_answer s garbled fresh eq_refl eq_refl H)
    as (Hr & Hf & Hh & _).
  split; [exact Hr|]. split; [exact Hf|exact Hh].
Defined.

Lemma save_text_unencodable_witness :
  let text := [104; 0xD800; 105] in
  let saved := save_text text (lit "app.py") healthy fresh in
  existsb Utf8.is_surrogate text = true
  /\ (exists msg, snd saved = Exc (Exception msg))
  /\ files (fst saved) !! lit "/srv/app/projects/20240307_090559_app.py" = Some []
  /\ history (fst saved) = [].
Proof.
  intros text saved.
  destruct (save_text_unencodable text (lit "app.py") healthy fresh
              eq_refl eq_refl) as (Hr & Hf & Hh & _).
  split; [reflexivity|]. split; [exact Hr|].
  split; [unfold saved; rewrite Hf; vm_compute; reflexivity|exact Hh].
Defined.

End StrictRunsWorked.
